(** * Link-protection bot (src/main.py): shallow embedding and checked properties

    The handlers of [src/main.py] are embedded as computations in a small
    state / exception / trace monad:
    - the three MongoDB collections and the per-user [context.user_data]
      are the mutable [Store];
    - every call of the chat client (membership query, invite-link creation,
      replies, edits, copies) is recorded in a trace of [Event]s, in
      program order;
    - Python exceptions are the [Raise] outcome, [try/except] is a
      combinator that filters on the exception class.

    What the platform answers is a parameter, the [World].  The three client
    calls the source wraps in [try] ([get_chat_member],
    [create_chat_invite_link], [Message.copy]) and [get_me] may raise;
    sending, editing and acknowledging are recorded and taken to succeed.
    The collections behave as keyed stores: [insert_one] refuses a key that
    is present, the other operations do not fail.  Strings are byte strings;
    [str.isspace] and [int] are modelled on ASCII. *)

From Stdlib Require Import String Ascii ZArith NArith DecimalString Lia Bool List.
From Stdlib.Strings Require Import Byte.
From stdpp Require Import gmap strings list.

Open Scope string_scope.

(** ** Python built-ins used by the source *)

Module Py.

(** [str.isspace] on the ASCII range: TAB..CR, FS..US and the blank. *)
Definition isspace (c : ascii) : bool :=
  let n := N_of_ascii c in
  (N.leb 9 n && N.leb n 13) || (N.leb 28 n && N.leb n 32).

Fixpoint lstrip_by (p : ascii -> bool) (s : string) : string :=
  match s with
  | String c s' => if p c then lstrip_by p s' else s
  | EmptyString => EmptyString
  end.

Fixpoint rstrip_by (p : ascii -> bool) (s : string) : string :=
  match s with
  | String c s' =>
      match rstrip_by p s' with
      | EmptyString => if p c then EmptyString else String c EmptyString
      | r => String c r
      end
  | EmptyString => EmptyString
  end.

(** [s.strip()] *)
Definition strip (s : string) : string := lstrip_by isspace (rstrip_by isspace s).

(** [s.lstrip(chars)] and [s.rstrip(chars)] for a one-character set. *)
Definition lstrip (c : ascii) (s : string) : string := lstrip_by (Ascii.eqb c) s.
Definition rstrip (c : ascii) (s : string) : string := rstrip_by (Ascii.eqb c) s.

(** Truth value of a string: [bool(s)]. *)
Definition truthy (s : string) : bool :=
  match s with EmptyString => false | _ => true end.

(** [s.split(sep)] for a one-character separator. *)
Fixpoint split (sep : ascii) (s : string) : list string :=
  match s with
  | EmptyString => [EmptyString]
  | String c s' =>
      if Ascii.eqb c sep then EmptyString :: split sep s'
      else match split sep s' with
           | h :: t => String c h :: t
           | [] => [String c EmptyString]
           end
  end.

(** [s.split(sep, maxsplit)] *)
Fixpoint splitn (sep : ascii) (s : string) (maxsplit : nat) {struct s} : list string :=
  match maxsplit with
  | O => [s]
  | S k =>
      match s with
      | EmptyString => [EmptyString]
      | String c s' =>
          if Ascii.eqb c sep then EmptyString :: splitn sep s' k
          else match splitn sep s' maxsplit with
               | h :: t => String c h :: t
               | [] => [String c EmptyString]
               end
      end
  end.

(** [l[-1]] on a list of strings (the lists above are never empty). *)
Definition last (l : list string) : string := List.last l EmptyString.

(** [s.startswith(p)] *)
Definition startswith (p s : string) : bool := String.prefix p s.

(** [c in s] for a one-character needle. *)
Fixpoint contains (c : ascii) (s : string) : bool :=
  match s with
  | String d s' => Ascii.eqb c d || contains c s'
  | EmptyString => false
  end.

Definition digit (c : ascii) : option Z :=
  let n := N_of_ascii c in
  if N.leb 48 n && N.leb n 57 then Some (Z.of_N n - 48)%Z else None.

(** Digits of a decimal literal; a single underscore may separate two
    digits, as [int] accepts.  [count] is the number of digits read: past
    4300 of them [int] refuses the literal (the default of
    [sys.set_int_max_str_digits]). *)
Fixpoint digits (acc : Z) (count : N) (after_digit : bool) (s : string) : option Z :=
  match s with
  | EmptyString =>
      if after_digit && N.leb count 4300 then Some acc else None
  | String c s' =>
      match digit c with
      | Some d => digits (10 * acc + d)%Z (count + 1)%N true s'
      | None =>
          if Ascii.eqb c "_" && after_digit then digits acc count false s' else None
      end
  end.

(** The blanks [int] skips around an ASCII literal: TAB..CR and the
    space, not FS..US. *)
Definition int_space (c : ascii) : bool :=
  let n := N_of_ascii c in
  (N.leb 9 n && N.leb n 13) || N.eqb n 32.

(** [int(s)] for a string argument: surrounding blanks, an optional
    sign, decimal digits.  [None] stands for [ValueError].  Digits outside
    ASCII, which [int] also reads, are not modelled. *)
Definition int (s : string) : option Z :=
  match lstrip_by int_space (rstrip_by int_space s) with
  | String "-" r => Z.opp <$> digits 0 0 false r
  | String "+" r => digits 0 0 false r
  | r => digits 0 0 false r
  end.

(** [s.lower()] on the ASCII range. *)
Definition lower_char (c : ascii) : ascii :=
  let n := N_of_ascii c in
  if N.leb 65 n && N.leb n 90 then ascii_of_N (n + 32) else c.

Fixpoint lower (s : string) : string :=
  match s with
  | String c s' => String (lower_char c) (lower s')
  | EmptyString => EmptyString
  end.

(** [str(n)] / [f"{n}"] for an integer. *)
Definition str_of_Z (n : Z) : string := NilZero.string_of_int (Z.to_int n).

(** [f"{v}"] for an optional string: [None] prints as ["None"]. *)
Definition str_of_opt (v : option string) : string :=
  match v with Some s => s | None => "None" end.

End Py.

(** ** Data model *)

(** A chat identifier is an [int] or a [str] in the source. *)
Inductive chat_id :=
| ChatInt (n : Z)
| ChatStr (handle : string).

(** [ChatMember] status constants of the chat client
    ([OWNER] is the status string "creator", [BANNED] is "kicked"). *)
Inductive ChatMemberStatus :=
| OWNER | ADMINISTRATOR | MEMBER | RESTRICTED | LEFT | BANNED.

(** Exception classes that reach the handlers.  [BadRequest] is the only
    one the invite-link code names; all of them derive from [Exception]. *)
Inductive exn :=
| ValueError | AttributeError | KeyError
| BadRequest | Forbidden | TimedOut | NetworkError | TelegramError
| DuplicateKeyError.

Inductive Res (A : Type) :=
| Ok (a : A)
| Raise (e : exn).
Arguments Ok {A} a.
Arguments Raise {A} e.

Record User := {
  id : Z;
  user_username : option string;
  user_first_name : string
}.

(** The message a broadcast replicates, named by its chat and number. *)
Record Message := {
  msg_chat : Z;
  message_id : Z
}.

(** Document of [protected_links]; the key [_id] is the map key. *)
Record ProtectedLink := {
  telegram_link : string;
  created_by : Z;
  created_at : Z;
  active : bool;
  clicks : Z
}.

(** Document of [users]. *)
Record UserRecord := {
  user_id : Z;
  username : option string;
  first_name : string;
  last_active : Z
}.

(** Document of [channels]; the key [channel_id] is the map key. *)
Record ChannelCacheEntry := {
  invite_link : option string
}.

Inductive ButtonAction :=
| Url (u : string)
| CallbackData (d : string)
| WebApp (u : string).

Record InlineKeyboardButton := {
  text : string;
  action : ButtonAction
}.

Definition InlineKeyboardMarkup := list (list InlineKeyboardButton).

Inductive ParseMode := MARKDOWN.

(** Calls of the chat client, in the order the handler makes them. *)
Inductive Event :=
| GetChatMember (chat : chat_id) (user : Z)
| CreateChatInviteLink (chat : chat_id)
| GetMe
| ReplyText (body : string) (markup : option InlineKeyboardMarkup) (pm : option ParseMode)
| Answer (body : option string) (show_alert : bool)
| EditText (body : string) (markup : option InlineKeyboardMarkup)
| Copy (payload : Message) (chat : Z)
| Sleep.

(** The mutable state: the three collections and [context.user_data]
    (one slot ["broadcast"] per user). *)
Record Store := {
  links_collection : gmap string ProtectedLink;
  users_collection : list UserRecord;
  channels_collection : gmap string ChannelCacheEntry;
  user_data : gmap Z Message
}.

(** What the handlers read but do not control: the process environment,
    the answers of the chat platform, the clock and the entropy source. *)
Record World := {
  environ : gmap string string;
  get_chat_member : chat_id -> Z -> Res ChatMemberStatus;
  create_chat_invite_link : chat_id -> Res string;
  get_me : Res string;
  copy_result : Message -> Z -> Res unit;
  now : Z;
  os_urandom16 : list byte
}.

(** A command update: the sender, [context.args] and the replied-to message. *)
Record CommandUpdate := {
  effective_user : User;
  args : list string;
  reply_to_message : option Message
}.

(** A callback query: who pressed, and the button's [callback_data]. *)
Record CallbackQuery := {
  from_user : User;
  data : string
}.

(** ** The handler monad: state, exceptions and a trace of client calls *)

Definition M (A : Type) : Type := Store -> Res A * Store * list Event.

Definition ret {A} (a : A) : M A := fun s => (Ok a, s, []).

Definition bind {A B} (m : M A) (f : A -> M B) : M B :=
  fun s =>
    match m s with
    | (Ok a, s1, t1) => let '(r, s2, t2) := f a s1 in (r, s2, (t1 ++ t2)%list)
    | (Raise e, s1, t1) => (Raise e, s1, t1)
    end.

Definition raise {A} (e : exn) : M A := fun s => (Raise e, s, []).

Definition of_res {A} (r : Res A) : M A := fun s => (r, s, []).

Definition emit (e : Event) : M unit := fun s => (Ok tt, s, [e]).

Definition get : M Store := fun s => (Ok s, s, []).

Definition put (s : Store) : M unit := fun _ => (Ok tt, s, []).

(** [try: m except <classes>: h] where [catches] tells the class test. *)
Definition try_except {A} (m : M A) (catches : exn -> bool) (h : M A) : M A :=
  fun s =>
    match m s with
    | (Raise e, s1, t1) =>
        if catches e then let '(r, s2, t2) := h s1 in (r, s2, (t1 ++ t2)%list)
        else (Raise e, s1, t1)
    | ok => ok
    end.

Declare Scope py_scope.
Delimit Scope py_scope with py.
Notation "x <- m ;; k" := (bind m (fun x => k))
  (at level 100, m at next level, right associativity) : py_scope.
Notation "m ;; k" := (bind m (fun _ => k))
  (at level 100, right associativity) : py_scope.
Open Scope py_scope.

Definition except_Exception (_ : exn) : bool := true.
Definition except_BadRequest (e : exn) : bool :=
  match e with BadRequest => true | _ => false end.

Definition modify (f : Store -> Store) : M unit := fun s => (Ok tt, f s, []).

(** ** Token generation: [uuid.uuid4().bytes], URL-safe base64, no padding *)

Module Token.

(** [int.from_bytes(bs, "big")] *)
Definition int_from_bytes (bs : list byte) : N :=
  fold_left (fun acc b => (acc * 256 + Byte.to_N b)%N) bs 0%N.

Definition byte_of_N (n : N) : byte :=
  default x00 (Byte.of_N (n mod 256)).

Fixpoint to_bytes_little (len : nat) (n : N) : list byte :=
  match len with
  | O => []
  | S k => byte_of_N n :: to_bytes_little k (n / 256)
  end.

(** [n.to_bytes(len, "big")] *)
Definition int_to_bytes (len : nat) (n : N) : list byte :=
  rev (to_bytes_little len n).

(** [uuid.uuid4()]: [UUID(bytes=os.urandom(16), version=4)].  The
    constructor overwrites the variant (two bits) and the version (four
    bits) of the 128-bit integer read from the random bytes. *)
Definition uuid4 (rnd : list byte) : N :=
  let n := int_from_bytes rnd in
  let n := N.ldiff n (N.shiftl 0xc000 48) in
  let n := N.lor n (N.shiftl 0x8000 48) in
  let n := N.ldiff n (N.shiftl 0xf000 64) in
  N.lor n (N.shiftl 4 76).

(** [UUID.bytes] *)
Definition uuid_bytes (u : N) : list byte := int_to_bytes 16 u.

Definition b64_alphabet : string :=
  "ABCDEFGHIJKLMNOPQRSTUVWXYZabcdefghijklmnopqrstuvwxyz0123456789+/".

Definition b64_char (n : N) : ascii :=
  default "="%char (String.get (N.to_nat n) b64_alphabet).

(** [base64.b64encode]: three bytes give four sextets; one or two
    trailing bytes are completed with ['='] padding. *)
Fixpoint b64encode (bs : list byte) : string :=
  match bs with
  | [] => EmptyString
  | [a] =>
      let x := Byte.to_N a in
      String (b64_char (x / 4))
        (String (b64_char ((x mod 4) * 16)) "==")
  | [a; b] =>
      let x := Byte.to_N a in
      let y := Byte.to_N b in
      String (b64_char (x / 4))
        (String (b64_char ((x mod 4) * 16 + y / 16))
           (String (b64_char ((y mod 16) * 4)) "="))
  | a :: b :: c :: rest =>
      let x := Byte.to_N a in
      let y := Byte.to_N b in
      let z := Byte.to_N c in
      String (b64_char (x / 4))
        (String (b64_char ((x mod 4) * 16 + y / 16))
           (String (b64_char ((y mod 16) * 4 + z / 64))
              (String (b64_char (z mod 64)) (b64encode rest))))
  end%N.

(** The translation table of [urlsafe_b64encode]: ['+'] to ['-'], ['/'] to ['_']. *)
Definition urlsafe_translate (c : ascii) : ascii :=
  if Ascii.eqb c "+" then "-"%char
  else if Ascii.eqb c "/" then "_"%char
  else c.

Fixpoint translate (f : ascii -> ascii) (s : string) : string :=
  match s with
  | String c s' => String (f c) (translate f s')
  | EmptyString => EmptyString
  end.

Definition urlsafe_b64encode (bs : list byte) : string :=
  translate urlsafe_translate (b64encode bs).

(** [base64.urlsafe_b64encode(u.bytes).decode().rstrip("=")] *)
Definition encode (u : N) : string :=
  Py.rstrip "=" (urlsafe_b64encode (uuid_bytes u)).

(** The [uid] of [protect_command], from the 16 bytes [uuid4] draws. *)
Definition generate (rnd : list byte) : string := encode (uuid4 rnd).

(** Characters that need no escaping in a URL path segment or query:
    RFC 3986 "unreserved" restricted to what the alphabet can produce. *)
Definition url_safe (c : ascii) : bool :=
  let n := N_of_ascii c in
  (N.leb 65 n && N.leb n 90) || (N.leb 97 n && N.leb n 122)
  || (N.leb 48 n && N.leb n 57) || Ascii.eqb c "-" || Ascii.eqb c "_".

Fixpoint all_chars (p : ascii -> bool) (s : string) : bool :=
  match s with
  | String c s' => p c && all_chars p s'
  | EmptyString => true
  end.

(** The six-bit groups [b64encode] prints, without the padding. *)
Fixpoint sextets (bs : list byte) : list N :=
  match bs with
  | [] => []
  | [a] =>
      let x := Byte.to_N a in
      [x / 4; (x mod 4) * 16]
  | [a; b] =>
      let x := Byte.to_N a in
      let y := Byte.to_N b in
      [x / 4; (x mod 4) * 16 + y / 16; (y mod 16) * 4]
  | a :: b :: c :: rest =>
      let x := Byte.to_N a in
      let y := Byte.to_N b in
      let z := Byte.to_N c in
      x / 4 :: (x mod 4) * 16 + y / 16 :: (y mod 16) * 4 + z / 64 :: z mod 64
        :: sextets rest
  end%N.

(** The padding [b64encode] appends. *)
Fixpoint padding (bs : list byte) : string :=
  match bs with
  | [] => EmptyString
  | [_] => "=="
  | [_; _] => "="
  | _ :: _ :: _ :: rest => padding rest
  end.

(** The character [urlsafe_b64encode] prints for a six-bit group. *)
Definition urlsafe_char (n : N) : ascii := urlsafe_translate (b64_char n).

(** Position of a character in the URL-safe alphabet (64 when absent). *)
Fixpoint index_from (i : N) (c : ascii) (alphabet : string) : N :=
  match alphabet with
  | String d rest =>
      if Ascii.eqb (urlsafe_translate d) c then i else index_from (i + 1) c rest
  | EmptyString => i
  end.

Definition urlsafe_index (c : ascii) : N := index_from 0 c b64_alphabet.

(** Value of a byte string read least significant byte first. *)
Definition value_little (bs : list byte) : N :=
  fold_right (fun b acc => (Byte.to_N b + 256 * acc)%N) 0%N bs.

End Token.

(** ** The handlers of src/main.py *)

Definition nl : string := String (ascii_of_nat 10) EmptyString.

(** [find_one({"_id": token, "active": True})] on [protected_links]. *)
Definition find_one_active (links : gmap string ProtectedLink) (token : string)
  : option ProtectedLink :=
  match links !! token with
  | Some d => if active d then Some d else None
  | None => None
  end.

(** [update_one({"user_id": ..}, {"$set": ..}, upsert=True)] on [users]:
    the first document with that [user_id] is rewritten, else one is added. *)
Fixpoint upsert_user (u : UserRecord) (l : list UserRecord) : list UserRecord :=
  match l with
  | [] => [u]
  | d :: l' => if Z.eqb (user_id d) (user_id u) then u :: l' else d :: upsert_user u l'
  end.

(** [cached and cached.get("invite_link")] *)
Definition cached_invite_link (channels : gmap string ChannelCacheEntry) (channel : string)
  : option string :=
  match channels !! channel with
  | Some {| invite_link := Some l |} => if Py.truthy l then Some l else None
  | _ => None
  end.

(** The identifier rule shared by lines 72-75 and 100-103: numeric strings
    become integers, other strings get a leading ['@'] if they have none. *)
Definition to_chat_id (ch : string) : chat_id :=
  match Py.int ch with
  | Some n => ChatInt n
  | None => ChatStr (if Py.startswith "@" ch then ch else "@" +:+ ch)
  end.

Definition qualifying (s : ChatMemberStatus) : bool :=
  match s with
  | MEMBER | ADMINISTRATOR | OWNER => true
  | _ => false
  end.

Definition join_button (link : string) : InlineKeyboardButton :=
  {| text := "📢 Join Channel"; action := Url link |}.

Definition check_button (cb : string) : InlineKeyboardButton :=
  {| text := "✅ Check"; action := CallbackData cb |}.

Definition launcher (web_url : string) : InlineKeyboardMarkup :=
  [[ {| text := "🔗 Join Group"; action := WebApp web_url |} ]].

Section Handlers.

Variable w : World.

Definition get_support_channels : list string :=
  let raw := Py.strip (default EmptyString (environ w !! "SUPPORT_CHANNELS")) in
  if negb (Py.truthy raw) then []
  else map Py.strip
         (List.filter (fun c => Py.truthy (Py.strip c)) (Py.split "," raw)).

Definition get_channel_invite_link (channel_id : string) : M string :=
  s <- get ;;
  match cached_invite_link (channels_collection s) channel_id with
  | Some l => ret l
  | None =>
      let chat := to_chat_id channel_id in
      try_except
        (emit (CreateChatInviteLink chat) ;;
         invite <- of_res (create_chat_invite_link w chat) ;;
         modify (fun s =>
           {| links_collection := links_collection s;
              users_collection := users_collection s;
              channels_collection :=
                <[channel_id := {| invite_link := Some invite |}]> (channels_collection s);
              user_data := user_data s |}) ;;
         ret invite)
        except_BadRequest
        (ret ("https://t.me/" +:+ Py.lstrip "@" channel_id))
  end.

(** The [for] loop of [check_channel_membership]; each round either
    returns [False] or goes on to the next channel. *)
Fixpoint membership_loop (user : Z) (channels : list string) : M bool :=
  match channels with
  | [] => ret true
  | ch :: rest =>
      verdict <- try_except
        (let chat := to_chat_id ch in
         emit (GetChatMember chat user) ;;
         member <- of_res (get_chat_member w chat user) ;;
         if negb (qualifying member) then ret (Some false) else ret None)
        except_Exception
        (ret (Some false)) ;;
      match verdict with
      | Some b => ret b
      | None => membership_loop user rest
      end
  end.

Definition check_channel_membership (user : Z) : M bool :=
  let channels := get_support_channels in
  match channels with
  | [] => ret true
  | _ => membership_loop user channels
  end.

Fixpoint join_rows (channels : list string) : M InlineKeyboardMarkup :=
  match channels with
  | [] => ret []
  | ch :: rest =>
      link <- get_channel_invite_link ch ;;
      rows <- join_rows rest ;;
      ret ([join_button link] :: rows)
  end.

Definition build_join_keyboard (encoded_id : option string) : M InlineKeyboardMarkup :=
  keyboard <- join_rows get_support_channels ;;
  let cb :=
    match encoded_id with
    | Some e => if Py.truthy e then "check_join_" +:+ e else "check_join"
    | None => "check_join"
    end in
  ret (keyboard ++ [[check_button cb]])%list.

Definition web_url (token : string) : string :=
  Py.str_of_opt (environ w !! "RENDER_EXTERNAL_URL") +:+ "/join?token=" +:+ token.

Definition start (u : CommandUpdate) : M unit :=
  let user := effective_user u in
  modify (fun s =>
    {| links_collection := links_collection s;
       users_collection :=
         upsert_user {| user_id := id user;
                        username := user_username user;
                        first_name := user_first_name user;
                        last_active := now w |} (users_collection s);
       channels_collection := channels_collection s;
       user_data := user_data s |}) ;;
  ok <- check_channel_membership (id user) ;;
  if negb ok then
    kb <- build_join_keyboard (head (args u)) ;;
    emit (ReplyText
            ("🔐 *Protected Access*" +:+ nl +:+ nl +:+
             "Please join **ALL channels below**, then press ✅ Check.")
            (Some kb) (Some MARKDOWN))
  else
    match args u with
    | token :: _ =>
        s <- get ;;
        match find_one_active (links_collection s) token with
        | None => emit (ReplyText "❌ Link expired or revoked" None None)
        | Some _ =>
            emit (ReplyText "🔐 Protected Link" (Some (launcher (web_url token))) None)
        end
    | [] =>
        emit (ReplyText
                ("🤖 *Link Protection Bot*" +:+ nl +:+ nl +:+
                 "• /protect – Create protected link" +:+ nl +:+
                 "• /revoke – Revoke links" +:+ nl +:+
                 "• /help – Help")
                None (Some MARKDOWN))
    end.

Definition button_callback (q : CallbackQuery) : M unit :=
  emit (Answer None false) ;;
  if Py.startswith "check_join" (data q) then
    ok <- check_channel_membership (id (from_user q)) ;;
    if negb ok then
      emit (Answer (Some "❌ Join all channels first") true)
    else if Py.contains "_" (data q) then
      let token := Py.last (Py.splitn "_" (data q) 2) in
      s <- get ;;
      match find_one_active (links_collection s) token with
      | None => emit (EditText "❌ Link expired" None)
      | Some _ => emit (EditText "✅ Verified" (Some (launcher (web_url token))))
      end
    else
      emit (EditText "✅ Verified! You can now use the bot." None)
  else ret tt.

(** [insert_one] on [protected_links]: [_id] is the primary key, a
    second document with the same key is refused. *)
Definition insert_one (key : string) (d : ProtectedLink) : M unit :=
  s <- get ;;
  match links_collection s !! key with
  | Some _ => raise DuplicateKeyError
  | None =>
      put {| links_collection := <[key := d]> (links_collection s);
             users_collection := users_collection s;
             channels_collection := channels_collection s;
             user_data := user_data s |}
  end.

Definition usage : string := "Usage:" +:+ nl +:+ "/protect https://t.me/yourgroup".

Definition share_link (bot_username uid : string) : string :=
  "https://t.me/" +:+ bot_username +:+ "?start=" +:+ uid.

Definition protect_command (u : CommandUpdate) : M unit :=
  ok <- check_channel_membership (id (effective_user u)) ;;
  if negb ok then
    kb <- build_join_keyboard None ;;
    emit (ReplyText "🔐 Join all support channels first." (Some kb) None)
  else
    match args u with
    | [] => emit (ReplyText usage None None)
    | arg0 :: _ =>
        if negb (Py.startswith "https://t.me/" arg0) then
          emit (ReplyText usage None None)
        else
          let uid := Token.generate (os_urandom16 w) in
          insert_one uid
            {| telegram_link := arg0;
               created_by := id (effective_user u);
               created_at := now w;
               active := true;
               clicks := 0 |} ;;
          emit GetMe ;;
          bot_username <- of_res (get_me w) ;;
          emit (ReplyText
                  ("✅ Protected Link:" +:+ nl +:+ "`" +:+ share_link bot_username uid +:+ "`")
                  None (Some MARKDOWN))
    end.

(** [int(os.environ.get("ADMIN_ID", 0))] *)
Definition admin_id : M Z :=
  match environ w !! "ADMIN_ID" with
  | None => ret 0%Z
  | Some v =>
      match Py.int v with
      | Some n => ret n
      | None => raise ValueError
      end
  end.

Definition confirm_keyboard : InlineKeyboardMarkup :=
  [ [ {| text := "✅ Confirm"; action := CallbackData "confirm_broadcast" |} ];
    [ {| text := "❌ Cancel"; action := CallbackData "cancel_broadcast" |} ] ].

Definition broadcast_command (u : CommandUpdate) : M unit :=
  admin <- admin_id ;;
  if negb (Z.eqb (id (effective_user u)) admin) then
    emit (ReplyText "❌ Admin only" None None)
  else
    match reply_to_message u with
    | None => emit (ReplyText "Reply to a message with /broadcast" None None)
    | Some payload =>
        modify (fun s =>
          {| links_collection := links_collection s;
             users_collection := users_collection s;
             channels_collection := channels_collection s;
             user_data := <[id (effective_user u) := payload]> (user_data s) |}) ;;
        emit (ReplyText "⚠️ Confirm broadcast?" (Some confirm_keyboard) None)
    end.

(** [await msg.copy(chat_id=...)]; with no stashed message [msg] is
    [None] and the attribute access raises. *)
Definition copy (msg : option Message) (chat : Z) : M unit :=
  match msg with
  | None => raise AttributeError
  | Some m => emit (Copy m chat) ;; of_res (copy_result w m chat)
  end.

(** The delivery loop, threading the [success] counter. *)
Fixpoint broadcast_loop (msg : option Message) (users : list UserRecord) (success : Z)
  : M Z :=
  match users with
  | [] => ret success
  | u :: rest =>
      success' <- try_except
        (copy msg (user_id u) ;;
         let success := (success + 1)%Z in
         emit Sleep ;;
         ret success)
        except_Exception
        (ret success) ;;
      broadcast_loop msg rest success'
  end.

Definition handle_broadcast_confirmation (q : CallbackQuery) : M unit :=
  emit (Answer None false) ;;
  if String.eqb (data q) "cancel_broadcast" then
    emit (EditText "❌ Broadcast cancelled" None)
  else
    s <- get ;;
    let msg := user_data s !! id (from_user q) in
    let users := users_collection s in
    success <- broadcast_loop msg users 0 ;;
    emit (EditText ("✅ Broadcast done: " +:+ Py.str_of_Z success +:+ " users") None).

Definition help_command (_ : CommandUpdate) : M unit :=
  emit (ReplyText
          ("🛡️ *Help*" +:+ nl +:+ nl +:+
           "/start" +:+ nl +:+ "/protect" +:+ nl +:+ "/revoke" +:+ nl +:+ "/help")
          None (Some MARKDOWN)).

Definition ignore_message : M unit := ret tt.

(** [error_handler] only logs. *)
Definition error_handler (_ : exn) : M unit := ret tt.

End Handlers.

(** ** Registration and dispatch (lines 294-312)

    The chat-client library keeps the handlers of one group in the order
    they were added and gives an update to the first handler whose
    [check_update] accepts it; the later handlers of the group do not see
    it.  All handlers of the source are added to the default group. *)

Inductive Update :=
| CommandMessage (command : string) (u : CommandUpdate)
| CallbackUpdate (q : CallbackQuery)
| OtherMessage.

Inductive Handler :=
| CommandHandler (command : string) (callback : CommandUpdate -> M unit)
| CallbackQueryHandler (pattern : option (string -> bool)) (callback : CallbackQuery -> M unit)
| MessageHandler (callback : M unit).

(** [re.match("^(confirm_broadcast|cancel_broadcast)$", data)]; the ['$']
    also matches before a final newline. *)
Definition broadcast_pattern (d : string) : bool :=
  String.eqb d "confirm_broadcast" || String.eqb d "cancel_broadcast"
  || String.eqb d ("confirm_broadcast" +:+ nl) || String.eqb d ("cancel_broadcast" +:+ nl).

(** [handler.check_update(update)]: the run of the callback when the
    handler accepts the update.  A command handler compares the command
    in lower case. *)
Definition check_update (h : Handler) (upd : Update) : option (M unit) :=
  match h, upd with
  | CommandHandler c f, CommandMessage c' u =>
      if String.eqb (Py.lower c) (Py.lower c') then Some (f u) else None
  | CallbackQueryHandler None f, CallbackUpdate q => Some (f q)
  | CallbackQueryHandler (Some p) f, CallbackUpdate q => if p (data q) then Some (f q) else None
  | MessageHandler f, OtherMessage => Some f
  | _, _ => None
  end.

Fixpoint first_match (hs : list Handler) (upd : Update) : option (M unit) :=
  match hs with
  | [] => None
  | h :: rest =>
      match check_update h upd with
      | Some run => Some run
      | None => first_match rest upd
      end
  end.

(** The handlers, in the order of the [add_handler] calls. *)
Definition handlers (w : World) : list Handler :=
  [ CommandHandler "start" (start w);
    CommandHandler "protect" (protect_command w);
    CommandHandler "broadcast" (broadcast_command w);
    CommandHandler "help" help_command;
    CallbackQueryHandler None (button_callback w);
    CallbackQueryHandler (Some broadcast_pattern) (handle_broadcast_confirmation w);
    MessageHandler ignore_message ].

(** [process_update]: the first accepting handler runs; an exception it
    raises goes to the error handler. *)
Definition process_update (w : World) (upd : Update) : M unit :=
  match first_match (handlers w) upd with
  | Some run =>
      fun s =>
        match run s with
        | (Raise e, s1, t1) =>
            let '(r, s2, t2) := error_handler e s1 in (r, s2, (t1 ++ t2)%list)
        | ok => ok
        end
  | None => ret tt
  end.

(** ** Reading the membership gate *)

Section GateSpec.

Variable w : World.
Variable user : Z.

(** One channel lets the user through: the query answers, with a
    qualifying status. *)
Definition passes (ch : string) : bool :=
  match get_chat_member w (to_chat_id ch) user with
  | Ok st => qualifying st
  | Raise _ => false
  end.

(** The channels the gate asks about: up to and including the first
    one that does not pass. *)
Fixpoint queried (channels : list string) : list string :=
  match channels with
  | [] => []
  | ch :: rest => ch :: (if passes ch then queried rest else [])
  end.

Definition query (ch : string) : Event := GetChatMember (to_chat_id ch) user.

End GateSpec.

(** The claim's vocabulary for one channel and one user. *)
Definition admits (w : World) (user : Z) (ch : string) : Prop :=
  exists st, get_chat_member w (to_chat_id ch) user = Ok st /\
             (st = MEMBER \/ st = ADMINISTRATOR \/ st = OWNER).

Definition refuses (w : World) (user : Z) (ch : string) : Prop :=
  (exists e, get_chat_member w (to_chat_id ch) user = Raise e) \/
  (exists st, get_chat_member w (to_chat_id ch) user = Ok st /\
              st <> MEMBER /\ st <> ADMINISTRATOR /\ st <> OWNER).

(** ** Concrete worlds and stores used to run the handlers *)

Module Scenario.

Definition empty_store : Store :=
  {| links_collection := ∅; users_collection := [];
     channels_collection := ∅; user_data := ∅ |}.

Definition alice : User :=
  {| id := 1001; user_username := Some "alice"; user_first_name := "Alice" |}.

Definition bob : User :=
  {| id := 1002; user_username := None; user_first_name := "Bob" |}.

Definition all_zero : list byte := repeat x00 16.

(** A world from its environment and its three fallible client calls;
    the bot is called [linkbot]. *)
Definition world (env : gmap string string)
    (member : chat_id -> Z -> Res ChatMemberStatus)
    (invite : chat_id -> Res string)
    (delivery : Message -> Z -> Res unit) : World :=
  {| environ := env;
     get_chat_member := member;
     create_chat_invite_link := invite;
     get_me := Ok "linkbot";
     copy_result := delivery;
     now := 1700000000;
     os_urandom16 := all_zero |}.

(** Three channels: the first admits everybody, the query of the
    second fails, the third admits everybody. *)
Definition three_channels : World :=
  world {[ "SUPPORT_CHANNELS" := "a, b,c" ]}
    (fun chat _ =>
       match chat with
       | ChatStr "@a" => Ok MEMBER
       | ChatStr "@b" => Raise BadRequest
       | _ => Ok OWNER
       end)
    (fun _ => Raise BadRequest)
    (fun _ _ => Ok tt).

(** The gate is disabled: no channel is configured. *)
Definition open_world : World :=
  world ∅ (fun _ _ => Raise Forbidden) (fun _ => Raise BadRequest) (fun _ _ => Ok tt).

Definition revoked_link : ProtectedLink :=
  {| telegram_link := "https://t.me/secretgroup"; created_by := 1002;
     created_at := 1690000000; active := false; clicks := 0 |}.

(** A registry whose only record, under the token [tok], is revoked. *)
Definition revoked_store : Store :=
  {| links_collection := {[ "tok" := revoked_link ]}; users_collection := [];
     channels_collection := ∅; user_data := ∅ |}.

(** Two draws of the entropy source that differ in the high half of
    byte 6 only, where [uuid4] writes the version. *)
Definition draw_a : list byte := repeat x00 16.
Definition draw_b : list byte := (repeat x00 6 ++ [x10] ++ repeat x00 9)%list.

Definition with_draw (rnd : list byte) (w : World) : World :=
  {| environ := environ w;
     get_chat_member := get_chat_member w;
     create_chat_invite_link := create_chat_invite_link w;
     get_me := get_me w;
     copy_result := copy_result w;
     now := now w;
     os_urandom16 := rnd |}.

Definition protect (user : User) (arguments : list string) : CommandUpdate :=
  {| effective_user := user; args := arguments; reply_to_message := None |}.

(** The scenario of the specification: one channel, [@grouptest];
    alice is a member, nobody else is; the invite link can be created. *)
Definition gated_world : World :=
  world {[ "SUPPORT_CHANNELS" := "@grouptest" ]}
    (fun chat user =>
       match chat with
       | ChatStr "@grouptest" => if Z.eqb user 1001 then Ok MEMBER else Ok LEFT
       | _ => Raise BadRequest
       end)
    (fun _ => Ok "https://t.me/+AbCdEf")
    (fun _ _ => Ok tt).

Definition payload : Message := {| msg_chat := 1001; message_id := 42 |}.

Definition user_record (uid : Z) : UserRecord :=
  {| user_id := uid; username := None; first_name := "user"; last_active := 0 |}.

(** Alice has a broadcast pending; three users are known. *)
Definition pending_store : Store :=
  {| links_collection := ∅;
     users_collection := [user_record 1; user_record 2; user_record 3];
     channels_collection := ∅;
     user_data := {[ 1001%Z := payload ]} |}.

(** Delivery to user 2 fails, the others succeed. *)
Definition flaky_world : World :=
  world ∅ (fun _ _ => Raise Forbidden) (fun _ => Raise BadRequest)
    (fun _ chat => if Z.eqb chat 2 then Raise Forbidden else Ok tt).

Definition press (user : User) (d : string) : CallbackQuery :=
  {| from_user := user; data := d |}.

(** One channel, in which the bot may not create invite links: the
    platform answers 403, which the client raises as [Forbidden]. *)
Definition forbidden_world : World :=
  world {[ "SUPPORT_CHANNELS" := "@grouptest" ]}
    (fun _ _ => Ok LEFT) (fun _ => Raise Forbidden) (fun _ _ => Ok tt).

End Scenario.

(** ** Observations on a run *)

Definition outcome {A} (r : Res A * Store * list Event) : Res A := r.1.1.
Definition final {A} (r : Res A * Store * list Event) : Store := r.1.2.
Definition trace {A} (r : Res A * Store * list Event) : list Event := r.2.

Definition is_web_app (b : InlineKeyboardButton) : bool :=
  match action b with WebApp _ => true | _ => false end.

(** A keyboard that carries the redemption launcher. *)
Definition has_launcher (kb : option InlineKeyboardMarkup) : bool :=
  match kb with
  | Some rows => existsb (existsb is_web_app) rows
  | None => false
  end.

(** A client call that shows the launcher to the user. *)
Definition reveals_launcher (e : Event) : bool :=
  match e with
  | ReplyText _ kb _ => has_launcher kb
  | EditText _ kb => has_launcher kb
  | _ => false
  end.

(** A client call that delivers a message to a broadcast recipient. *)
Definition is_copy (e : Event) : bool :=
  match e with Copy _ _ => true | _ => false end.

(** The user record [/start] writes. *)
Definition presence (w : World) (user : User) : UserRecord :=
  {| user_id := id user; username := user_username user;
     first_name := user_first_name user; last_active := now w |}.

Definition with_users (f : list UserRecord -> list UserRecord) (s : Store) : Store :=
  {| links_collection := links_collection s;
     users_collection := f (users_collection s);
     channels_collection := channels_collection s;
     user_data := user_data s |}.

(** The record [/protect] stores for its first argument. *)
Definition new_link (w : World) (u : CommandUpdate) (destination : string) : ProtectedLink :=
  {| telegram_link := destination;
     created_by := id (effective_user u);
     created_at := now w;
     active := true;
     clicks := 0 |}.

Definition with_links (f : gmap string ProtectedLink -> gmap string ProtectedLink)
    (s : Store) : Store :=
  {| links_collection := f (links_collection s);
     users_collection := users_collection s;
     channels_collection := channels_collection s;
     user_data := user_data s |}.

(** A copy attempt to one recipient succeeds.  With nothing stashed the
    attempt fails before any client call. *)
Definition delivered (w : World) (pending : option Message) (u : UserRecord) : bool :=
  match pending with
  | Some m =>
      match copy_result w m (user_id u) with
      | Ok _ => true
      | Raise _ => false
      end
  | None => false
  end.

(** The client calls of one round of the delivery loop. *)
Definition attempt (w : World) (pending : option Message) (u : UserRecord) : list Event :=
  match pending with
  | Some m => Copy m (user_id u) :: (if delivered w pending u then [Sleep] else [])
  | None => []
  end.

(** ** The webhook endpoint (lines 327-333) *)

(** What the endpoint gives the transport: a response, an [HTTPException],
    or an exception nothing caught (the framework answers 500). *)
Inductive HttpOutcome :=
| Response (status_code : nat)
| HTTPException (status_code : nat)
| Unhandled (e : exn).

(** [token != os.environ.get("TELEGRAM_TOKEN")]: an unset variable reads
    as [None], which no path segment equals. *)
Definition token_differs (w : World) (token : string) : bool :=
  match environ w !! "TELEGRAM_TOKEN" with
  | Some secret => negb (String.eqb token secret)
  | None => true
  end.

(** [webhook].  [body] is what line 331 computes from the request,
    [Update.de_json(await request.json(), bot)]: the decoded update, or the
    exception an undecodable body raises there, outside any [try]. *)
Definition webhook (w : World) (token : string) (body : Res Update)
  : Store -> HttpOutcome * Store * list Event :=
  fun s =>
    if token_differs w token then (HTTPException 403, s, [])
    else
      match body with
      | Raise e => (Unhandled e, s, [])
      | Ok upd =>
          match process_update w upd s with
          | (Ok _, s1, t1) => (Response 200, s1, t1)
          | (Raise e, s1, t1) => (Unhandled e, s1, t1)
          end
      end.

(** ** Further worlds and stores *)

Module Cases.

(** The scenario world with a secret, a base URL and an admin configured. *)
Definition configured_world : World :=
  Scenario.world
    {[ "SUPPORT_CHANNELS" := "@grouptest";
       "TELEGRAM_TOKEN" := "123:secret";
       "RENDER_EXTERNAL_URL" := "https://bot.example";
       "ADMIN_ID" := "1001" ]}
    (fun chat user =>
       match chat with
       | ChatStr "@grouptest" => if Z.eqb user 1001 then Ok MEMBER else Ok LEFT
       | _ => Raise BadRequest
       end)
    (fun _ => Ok "https://t.me/+AbCdEf")
    (fun _ _ => Ok tt).

(** The same world with an [ADMIN_ID] that is not a number. *)
Definition misconfigured_world : World :=
  Scenario.world {[ "ADMIN_ID" := "admin" ]}
    (fun _ _ => Raise Forbidden) (fun _ => Raise BadRequest) (fun _ _ => Ok tt).

Definition live_link : ProtectedLink :=
  {| telegram_link := "https://t.me/mygroup"; created_by := 1001;
     created_at := 1690000000; active := true; clicks := 0 |}.

(** A registry whose only record, under the token [a_b], is active. *)
Definition live_store : Store :=
  {| links_collection := {[ "a_b" := live_link ]}; users_collection := [];
     channels_collection := ∅; user_data := ∅ |}.

Definition broadcast_request (user : User) (target : option Message) : CommandUpdate :=
  {| effective_user := user; args := []; reply_to_message := target |}.

(** A registry in which the token of the all-zero draw is already taken. *)
Definition taken_store : Store :=
  {| links_collection := {[ Token.generate Scenario.all_zero := live_link ]};
     users_collection := []; channels_collection := ∅; user_data := ∅ |}.

(** The scenario world with a bot whose identity cannot be fetched. *)
Definition offline_world : World :=
  {| environ := environ Scenario.gated_world;
     get_chat_member := get_chat_member Scenario.gated_world;
     create_chat_invite_link := create_chat_invite_link Scenario.gated_world;
     get_me := Raise TimedOut;
     copy_result := copy_result Scenario.gated_world;
     now := now Scenario.gated_world;
     os_urandom16 := os_urandom16 Scenario.gated_world |}.

End Cases.

(** A client call that sends the requester a new message. *)
Definition is_reply (e : Event) : bool :=
  match e with ReplyText _ _ _ => true | _ => false end.

(** ** The spec's words "a well-formed https://t.me/ URL"

    The source has no such test.  This reading of the words serves only
    to name arguments the code accepts although they are no URL: the
    prefix, then nothing but characters RFC 3986 allows in a URI, every
    ['%'] followed by two hexadecimal digits. *)

Module Url.

Definition hexdig (c : ascii) : bool :=
  let n := N_of_ascii c in
  (N.leb 48 n && N.leb n 57) || (N.leb 65 n && N.leb n 70) || (N.leb 97 n && N.leb n 102).

(** Unreserved and reserved characters (ALPHA, DIGIT, [-._~],
    [:/?#[]@], [!$&'()*+,;=]). *)
Definition uri_char (c : ascii) : bool :=
  let n := N_of_ascii c in
  (N.leb 65 n && N.leb n 90) || (N.leb 97 n && N.leb n 122) || (N.leb 48 n && N.leb n 57)
  || existsb (N.eqb n)
       [45; 46; 95; 126; 58; 47; 63; 35; 91; 93; 64;
        33; 36; 38; 39; 40; 41; 42; 43; 44; 59; 61]%N.

Fixpoint uri_chars (s : string) : bool :=
  match s with
  | EmptyString => true
  | String c r =>
      if Ascii.eqb c "%" then
        match r with
        | String a (String b r') => hexdig a && hexdig b && uri_chars r'
        | _ => false
        end
      else uri_char c && uri_chars r
  end.

Definition well_formed (s : string) : bool :=
  Py.startswith "https://t.me/" s && uri_chars s.

End Url.

(** * Properties *)

(** ** Membership gate *)

Section GateFacts.

Variable w : World.
Variable user : Z.

Lemma membership_loop_run (channels : list string) (s : Store) :
  membership_loop w user channels s =
    (Ok (forallb (passes w user) channels), s,
     map (query user) (queried w user channels)).
Proof.
  induction channels as [|ch rest IH]; [reflexivity|].
  cbn [membership_loop forallb queried map].
  unfold bind, try_except, emit, of_res, passes, query.
  fold (passes w user) (query user).
  destruct (get_chat_member w (to_chat_id ch) user) as [st|e]; cbn.
  - destruct (qualifying st); cbn; [|reflexivity].
    rewrite IH. reflexivity.
  - reflexivity.
Qed.

Lemma check_channel_membership_run (s : Store) :
  check_channel_membership w user s =
    (Ok (forallb (passes w user) (get_support_channels w)), s,
     map (query user) (queried w user (get_support_channels w))).
Proof.
  unfold check_channel_membership.
  destruct (get_support_channels w) as [|ch rest] eqn:E; [reflexivity|].
  apply membership_loop_run.
Qed.

Lemma passes_iff (ch : string) :
  passes w user ch = true <->
  exists st, get_chat_member w (to_chat_id ch) user = Ok st /\
             (st = MEMBER \/ st = ADMINISTRATOR \/ st = OWNER).
Proof.
  unfold passes. split.
  - destruct (get_chat_member w (to_chat_id ch) user) as [st|e]; [|discriminate].
    intros Hq. exists st. split; [reflexivity|].
    destruct st; try discriminate; auto.
  - intros (st & -> & [-> | [-> | ->]]); reflexivity.
Qed.

Lemma queried_first_failure (pre post : list string) (ch : string) :
  forallb (passes w user) pre = true ->
  passes w user ch = false ->
  queried w user (pre ++ ch :: post) = (pre ++ [ch])%list.
Proof.
  intros Hpre Hch. induction pre as [|p pre IH]; cbn.
  - rewrite Hch. reflexivity.
  - cbn in Hpre. apply andb_prop in Hpre as [Hp Hpre].
    rewrite Hp, IH by assumption. reflexivity.
Qed.

End GateFacts.

(** C1. The membership gate returns true for every user when no channel
    is configured; otherwise it returns true exactly when every configured
    channel answers with a status among member, administrator and owner;
    at the first channel whose query raises or answers with another status
    it returns false, having queried that channel and those before it and
    none of the later ones.  The store is never changed. *)
Theorem check_channel_membership_gate (w : World) (user : Z) (s : Store) :
  (get_support_channels w = [] ->
   check_channel_membership w user s = (Ok true, s, []))
  /\ (exists b t,
        check_channel_membership w user s = (Ok b, s, t) /\
        (b = true <-> Forall (admits w user) (get_support_channels w)))
  /\ (forall pre ch post,
        get_support_channels w = (pre ++ ch :: post)%list ->
        Forall (admits w user) pre ->
        refuses w user ch ->
        check_channel_membership w user s =
          (Ok false, s, map (query user) (pre ++ [ch])%list)).
Proof.
  assert (Hadm : forall l, forallb (passes w user) l = true <-> Forall (admits w user) l).
  { intros l. rewrite forallb_forall, Forall_forall.
    split; intros H ch Hin.
    - apply passes_iff, H, list_elem_of_In, Hin.
    - apply passes_iff, H, list_elem_of_In, Hin. }
  split; [|split].
  - intros E. rewrite check_channel_membership_run, E. reflexivity.
  - eexists _, _. split; [apply check_channel_membership_run|]. apply Hadm.
  - intros pre ch post E Hpre Hch.
    assert (Hfail : passes w user ch = false).
    { unfold passes. destruct Hch as [[e ->] | (st & -> & H1 & H2 & H3)]; [reflexivity|].
      destruct st; try reflexivity; congruence. }
    rewrite check_channel_membership_run, E.
    rewrite queried_first_failure by (try apply Hadm; assumption).
    rewrite forallb_app. cbn. rewrite Hfail, andb_false_r. reflexivity.
Qed.

Lemma check_channel_membership_gate_witness :
  check_channel_membership Scenario.three_channels 1001 Scenario.empty_store =
    (Ok false, Scenario.empty_store,
     [GetChatMember (ChatStr "@a") 1001; GetChatMember (ChatStr "@b") 1001]).
Proof.
  apply (proj2 (proj2 (check_channel_membership_gate
                         Scenario.three_channels 1001 Scenario.empty_store))
           ["a"] "b" ["c"]).
  - vm_compute. reflexivity.
  - constructor; [|constructor]. exists MEMBER. split; [reflexivity|]. left. reflexivity.
  - left. exists BadRequest. reflexivity.
Defined.

(** ** Redemption *)

Section RedemptionFacts.

Variable w : World.

Lemma prefix_app (p s : string) :
  String.prefix p s = true -> exists r, s = p +:+ r.
Proof.
  revert s. induction p as [|a p IH]; intros s H.
  - exists s. reflexivity.
  - destruct s as [|b s]; [discriminate|]. cbn in H.
    destruct (ascii_dec a b) as [->|]; [|discriminate].
    destruct (IH s H) as [r ->]. exists r. reflexivity.
Qed.

Lemma splitn_0 (sep : ascii) (s : string) : Py.splitn sep s 0 = [s].
Proof. destruct s; reflexivity. Qed.

Lemma check_join_has_underscore (d : string) :
  Py.startswith "check_join" d = true -> Py.contains "_" d = true.
Proof.
  intros H. apply prefix_app in H as [r ->]. reflexivity.
Qed.

Lemma recheck_token (t : string) :
  Py.last (Py.splitn "_" ("check_join_" +:+ t) 2) = t.
Proof. simpl. rewrite splitn_0. reflexivity. Qed.

(** What [/start <token> ...] does once the gate has passed. *)
Lemma start_passed (u : CommandUpdate) (token : string) (rest : list string) (s : Store) :
  args u = token :: rest ->
  forallb (passes w (id (effective_user u))) (get_support_channels w) = true ->
  start w u s =
    (Ok tt, with_users (upsert_user (presence w (effective_user u))) s,
     map (query (id (effective_user u)))
         (queried w (id (effective_user u)) (get_support_channels w)) ++
     [match find_one_active (links_collection s) token with
      | None => ReplyText "❌ Link expired or revoked" None None
      | Some _ => ReplyText "🔐 Protected Link" (Some (launcher (web_url w token))) None
      end])%list.
Proof.
  intros Hargs Hpass. unfold start, bind, modify.
  rewrite check_channel_membership_run, Hpass, Hargs. cbn.
  destruct (find_one_active _ token); reflexivity.
Qed.

(** What the re-check callback does once the gate has passed. *)
Lemma button_callback_passed (q : CallbackQuery) (s : Store) :
  Py.startswith "check_join" (data q) = true ->
  forallb (passes w (id (from_user q))) (get_support_channels w) = true ->
  button_callback w q s =
    (Ok tt, s,
     Answer None false ::
     map (query (id (from_user q)))
         (queried w (id (from_user q)) (get_support_channels w)) ++
     [let token := Py.last (Py.splitn "_" (data q) 2) in
      match find_one_active (links_collection s) token with
      | None => EditText "❌ Link expired" None
      | Some _ => EditText "✅ Verified" (Some (launcher (web_url w token)))
      end])%list.
Proof.
  intros Hdata Hpass. unfold button_callback, bind, emit.
  rewrite Hdata, check_channel_membership_run, Hpass.
  rewrite (check_join_has_underscore _ Hdata). cbn.
  destruct (find_one_active _ _); reflexivity.
Qed.

End RedemptionFacts.

Lemma last_after {A} (l : list A) (a b d : A) : List.last (l ++ [a; b]) d = b.
Proof.
  change [a; b] with ([a] ++ [b])%list. rewrite app_assoc. apply last_last.
Qed.

Lemma queries_reveal_nothing (user : Z) (l : list string) :
  existsb reveals_launcher (map (query user) l) = false.
Proof. induction l; [reflexivity | assumption]. Qed.

Lemma forallb_admits (w : World) (user : Z) (l : list string) :
  Forall (admits w user) l -> forallb (passes w user) l = true.
Proof.
  intros H. apply forallb_forall. intros ch Hin.
  apply passes_iff. rewrite Forall_forall in H. apply H, list_elem_of_In, Hin.
Qed.

(** The join keyboard and the calls that build it never carry the launcher. *)
Section JoinKeyboardFacts.

Variable w : World.

Lemma get_channel_invite_link_quiet (ch : string) (s : Store) :
  existsb reveals_launcher (trace (get_channel_invite_link w ch s)) = false.
Proof.
  unfold get_channel_invite_link, try_except, bind, get, emit, of_res, modify, ret, trace.
  cbv beta iota.
  destruct (cached_invite_link _ ch); [reflexivity|].
  destruct (create_chat_invite_link w (to_chat_id ch)) as [l|e]; [reflexivity|].
  destruct (except_BadRequest e); reflexivity.
Qed.

Lemma join_rows_quiet (channels : list string) (s : Store) :
  existsb reveals_launcher (trace (join_rows w channels s)) = false /\
  forall rows, outcome (join_rows w channels s) = Ok rows ->
               existsb (existsb is_web_app) rows = false.
Proof.
  revert s. induction channels as [|ch rest IH]; intros s.
  - split; [reflexivity|]. intros rows [= <-]. reflexivity.
  - cbn [join_rows]. unfold bind, trace, outcome.
    pose proof (get_channel_invite_link_quiet ch s) as Hch. unfold trace in Hch.
    destruct (get_channel_invite_link w ch s) as [[[l|e] s1] t1]; cbn [fst snd] in Hch |- *.
    + destruct (IH s1) as [Htrace Hrows]. unfold trace, outcome in Htrace, Hrows.
      destruct (join_rows w rest s1) as [[[rows|e] s2] t2];
        cbn [fst snd ret] in Htrace, Hrows |- *.
      * rewrite app_nil_r, existsb_app, Hch, Htrace. split; [reflexivity|].
        intros rows' [= <-]. cbn. apply Hrows. reflexivity.
      * rewrite existsb_app, Hch, Htrace. split; [reflexivity | discriminate].
    + split; [exact Hch | discriminate].
Qed.

Lemma build_join_keyboard_quiet (encoded_id : option string) (s : Store) :
  existsb reveals_launcher (trace (build_join_keyboard w encoded_id s)) = false /\
  forall kb, outcome (build_join_keyboard w encoded_id s) = Ok kb ->
             has_launcher (Some kb) = false.
Proof.
  unfold build_join_keyboard, bind, trace, outcome.
  destruct (join_rows_quiet (get_support_channels w) s) as [Htrace Hrows].
  unfold trace, outcome in Htrace, Hrows.
  destruct (join_rows w (get_support_channels w) s) as [[[rows|e] s1] t1];
    cbn [fst snd ret] in Htrace, Hrows |- *.
  - rewrite app_nil_r. split; [exact Htrace|].
    intros kb [= <-]. cbn [has_launcher]. rewrite existsb_app, (Hrows rows eq_refl).
    reflexivity.
  - split; [exact Htrace | discriminate].
Qed.

(** [/start] shows the launcher only for a token that [find_one] resolves. *)
Lemma start_quiet (u : CommandUpdate) (s : Store) :
  (forall token rest, args u = token :: rest ->
                      find_one_active (links_collection s) token = None) ->
  existsb reveals_launcher (trace (start w u s)) = false.
Proof.
  intros Hnone. unfold start, bind at 1, modify. unfold bind at 1.
  rewrite check_channel_membership_run. cbn [links_collection].
  destruct (forallb _ _); cbn [negb].
  - destruct (args u) as [|token rest] eqn:Hargs.
    + unfold trace. cbn. rewrite existsb_app, queries_reveal_nothing.
      reflexivity.
    + unfold bind, get, trace. cbv beta iota. cbn [links_collection].
      rewrite (Hnone token rest eq_refl). cbn.
      rewrite existsb_app, queries_reveal_nothing. reflexivity.
  - unfold bind, trace.
    match goal with
    | |- context [build_join_keyboard w ?e ?s1] =>
        destruct (build_join_keyboard_quiet e s1) as [Htrace Hkb];
        unfold trace, outcome in Htrace, Hkb;
        destruct (build_join_keyboard w e s1) as [[[kb|e'] s2] t2]
    end; cbn [fst snd emit] in Htrace, Hkb |- *.
    + cbn [app]. rewrite !existsb_app, queries_reveal_nothing, Htrace.
      cbn [existsb reveals_launcher orb]. rewrite (Hkb kb eq_refl). reflexivity.
    + cbn [app]. rewrite existsb_app, queries_reveal_nothing, Htrace. reflexivity.
Qed.

(** The re-check callback shows the launcher only for a token that [find_one] resolves. *)
Lemma button_callback_quiet (q : CallbackQuery) (s : Store) :
  find_one_active (links_collection s) (Py.last (Py.splitn "_" (data q) 2)) = None ->
  existsb reveals_launcher (trace (button_callback w q s)) = false.
Proof.
  intros Hnone. unfold button_callback, bind at 1, emit at 1.
  destruct (Py.startswith "check_join" (data q)); [|reflexivity].
  unfold bind at 1. rewrite check_channel_membership_run.
  destruct (forallb _ _); cbn [negb].
  - destruct (Py.contains "_" (data q)).
    + unfold bind, get, trace. cbv beta iota. rewrite Hnone. cbn.
      rewrite existsb_app, queries_reveal_nothing. reflexivity.
    + unfold trace. cbn. rewrite existsb_app, queries_reveal_nothing. reflexivity.
  - unfold trace. cbn. rewrite existsb_app, queries_reveal_nothing. reflexivity.
Qed.

End JoinKeyboardFacts.

(** C2. A link whose record has [active = false] is never resolved: no
    client call of [/start <token>] or of the re-check callback for that
    token carries the launcher, whatever the gate answers.  For a requester
    who passes the gate, redeeming a token with no record and redeeming a
    token whose record is inactive make the same client calls, ending in
    the same fixed notice without keyboard; the run with the record equals
    the run without it, so nothing of the record (its [telegram_link])
    reaches the user. *)
Theorem revoked_same_as_unknown (w : World) (user : User) (token : string)
    (rest : list string) (reply : option Message) (unknown revoked : Store)
    (d : ProtectedLink) :
  links_collection unknown !! token = None ->
  links_collection revoked !! token = Some d ->
  active d = false ->
  let u := {| effective_user := user; args := token :: rest; reply_to_message := reply |} in
  let q := {| from_user := user; data := "check_join_" +:+ token |} in
  (existsb reveals_launcher (trace (start w u revoked)) = false /\
   existsb reveals_launcher (trace (button_callback w q revoked)) = false)
  /\
  (Forall (admits w (id user)) (get_support_channels w) ->
   (outcome (start w u unknown) = Ok tt /\ outcome (start w u revoked) = Ok tt /\
    trace (start w u unknown) = trace (start w u revoked) /\
    List.last (trace (start w u revoked)) GetMe =
      ReplyText "❌ Link expired or revoked" None None)
   /\
   (outcome (button_callback w q unknown) = Ok tt /\
    outcome (button_callback w q revoked) = Ok tt /\
    trace (button_callback w q unknown) = trace (button_callback w q revoked) /\
    List.last (trace (button_callback w q revoked)) GetMe =
      EditText "❌ Link expired" None)).
Proof.
  intros Hunknown Hrevoked Hinactive u q.
  assert (F1 : find_one_active (links_collection unknown) token = None)
    by (unfold find_one_active; rewrite Hunknown; reflexivity).
  assert (F2 : find_one_active (links_collection revoked) token = None)
    by (unfold find_one_active; rewrite Hrevoked, Hinactive; reflexivity).
  split; [split|].
  - apply start_quiet. intros token' rest' [= <- _]. exact F2.
  - apply button_callback_quiet.
    replace (data q) with ("check_join_" +:+ token) by reflexivity.
    rewrite recheck_token. exact F2.
  - intros Hgate. apply forallb_admits in Hgate. split.
    + rewrite !(start_passed w u token rest) by (reflexivity || exact Hgate).
      rewrite F1, F2. unfold outcome, trace. cbn [fst snd].
      rewrite last_last. repeat split; reflexivity.
    + rewrite !(button_callback_passed w q) by (reflexivity || exact Hgate).
      cbn zeta. replace (data q) with ("check_join_" +:+ token) by reflexivity.
      rewrite recheck_token, F1, F2. unfold outcome, trace. cbn [fst snd].
      rewrite app_comm_cons, last_last. repeat split; reflexivity.
Qed.

Lemma revoked_same_as_unknown_witness :
  trace (start Scenario.open_world
           {| effective_user := Scenario.alice; args := ["tok"]; reply_to_message := None |}
           Scenario.empty_store) =
  trace (start Scenario.open_world
           {| effective_user := Scenario.alice; args := ["tok"]; reply_to_message := None |}
           Scenario.revoked_store).
Proof.
  apply (revoked_same_as_unknown Scenario.open_world Scenario.alice "tok" [] None
           Scenario.empty_store Scenario.revoked_store Scenario.revoked_link
           eq_refl eq_refl eq_refl).
  vm_compute. constructor.
Defined.

(** ** Token generation *)

(** Linear arithmetic with division and remainder by constants. *)
Ltac div_lia := zify; Z.to_euclidean_division_equations; lia.

Section TokenFacts.

Import Token.

Lemma translate_app (f : ascii -> ascii) (s t : string) :
  translate f (s +:+ t) = translate f s +:+ translate f t.
Proof.
  induction s as [|c s IH]; [reflexivity|].
  change (String c s +:+ t) with (String c (s +:+ t)).
  cbn [translate]. rewrite IH. reflexivity.
Qed.

Lemma translate_padding (bs : list byte) :
  translate urlsafe_translate (padding bs) = padding bs.
Proof.
  induction bs as [bs IH] using (induction_ltof1 _ (@length byte)).
  destruct bs as [|a [|b [|c rest]]]; try reflexivity.
  cbn [padding]. apply IH. unfold ltof. cbn. lia.
Qed.

(** The encoder prints the characters of the six-bit groups, then the padding. *)
Lemma urlsafe_b64encode_sextets (bs : list byte) :
  urlsafe_b64encode bs =
    string_of_list_ascii (map urlsafe_char (sextets bs)) +:+ padding bs.
Proof.
  unfold urlsafe_b64encode.
  induction bs as [bs IH] using (induction_ltof1 _ (@length byte)).
  destruct bs as [|a [|b [|c rest]]]; try reflexivity.
  cbn [b64encode sextets padding map string_of_list_ascii translate String.append].
  rewrite IH by (unfold ltof; cbn; lia). reflexivity.
Qed.

Lemma sextets_bounded (bs : list byte) :
  Forall (fun n => (n < 64)%N) (sextets bs).
Proof.
  induction bs as [bs IH] using (induction_ltof1 _ (@length byte)).
  destruct bs as [|a [|b [|c rest]]]; cbn [sextets]; cbn zeta.
  - apply List.Forall_nil.
  - pose proof (to_N_bounded a).
    repeat (apply List.Forall_cons; [cbn beta; div_lia|]). apply List.Forall_nil.
  - pose proof (to_N_bounded a). pose proof (to_N_bounded b).
    repeat (apply List.Forall_cons; [cbn beta; div_lia|]). apply List.Forall_nil.
  - pose proof (to_N_bounded a). pose proof (to_N_bounded b).
    pose proof (to_N_bounded c).
    do 4 (apply List.Forall_cons; [cbn beta; div_lia|]). apply IH. unfold ltof. cbn. lia.
Qed.

Lemma sextets_length (bs : list byte) :
  length bs = 16 -> length (sextets bs) = 22.
Proof.
  intros H.
  do 16 (destruct bs as [|? bs]; [discriminate|]).
  destruct bs; [reflexivity | discriminate].
Qed.

Lemma below_64 (P : N -> bool) :
  forallb P (map N.of_nat (seq 0 64)) = true ->
  forall n, (n < 64)%N -> P n = true.
Proof.
  intros H n Hn. rewrite forallb_forall in H. apply H.
  rewrite <- (N2Nat.id n). apply in_map, in_seq. lia.
Qed.

Lemma urlsafe_char_safe (n : N) : (n < 64)%N -> url_safe (urlsafe_char n) = true.
Proof. apply (below_64 (fun n => url_safe (urlsafe_char n))). vm_compute. reflexivity. Qed.

Lemma urlsafe_index_char (n : N) : (n < 64)%N -> urlsafe_index (urlsafe_char n) = n.
Proof.
  intros Hn. apply N.eqb_eq. revert n Hn.
  apply (below_64 (fun n => N.eqb (urlsafe_index (urlsafe_char n)) n)).
  vm_compute. reflexivity.
Qed.

Lemma url_safe_not_padding (c : ascii) :
  url_safe c = true -> Ascii.eqb "=" c = false.
Proof.
  destruct c as [[] [] [] [] [] [] [] []]; vm_compute; congruence.
Qed.

Lemma rstrip_by_all (p : ascii -> bool) (pad : string) :
  all_chars p pad = true -> Py.rstrip_by p pad = EmptyString.
Proof.
  induction pad as [|c pad IH]; [reflexivity|].
  cbn. intros H. apply andb_prop in H as [Hc Hpad].
  rewrite (IH Hpad), Hc. reflexivity.
Qed.

Lemma rstrip_by_app (p : ascii -> bool) (body pad : string) :
  all_chars (fun c => negb (p c)) body = true ->
  all_chars p pad = true ->
  Py.rstrip_by p (body +:+ pad) = body.
Proof.
  intros Hbody Hpad. induction body as [|c body IH].
  - apply rstrip_by_all, Hpad.
  - cbn in Hbody. apply andb_prop in Hbody as [Hc Hbody].
    change (String c body +:+ pad) with (String c (body +:+ pad)).
    cbn [Py.rstrip_by]. rewrite (IH Hbody).
    apply negb_true_iff in Hc. rewrite Hc.
    destruct body; reflexivity.
Qed.

Lemma padding_all (bs : list byte) : all_chars (Ascii.eqb "=") (padding bs) = true.
Proof.
  induction bs as [bs IH] using (induction_ltof1 _ (@length byte)).
  destruct bs as [|a [|b [|c rest]]]; try reflexivity.
  cbn [padding]. apply IH. unfold ltof. cbn. lia.
Qed.

Lemma all_chars_sextets (l : list N) :
  Forall (fun n => (n < 64)%N) l ->
  all_chars url_safe (string_of_list_ascii (map urlsafe_char l)) = true.
Proof.
  induction 1 as [|n l Hn _ IH]; [reflexivity|].
  cbn. rewrite (urlsafe_char_safe n Hn), IH. reflexivity.
Qed.

Lemma all_chars_impl (p q : ascii -> bool) (s : string) :
  (forall c, p c = true -> q c = true) ->
  all_chars p s = true -> all_chars q s = true.
Proof.
  intros Hpq. induction s as [|c s IH]; [reflexivity|].
  cbn. intros H. apply andb_prop in H as [Hc Hs].
  rewrite (Hpq c Hc), (IH Hs). reflexivity.
Qed.

(** Stripping the padding leaves exactly the characters of the six-bit groups. *)
Lemma unpadded_sextets (bs : list byte) :
  Py.rstrip "=" (urlsafe_b64encode bs) =
    string_of_list_ascii (map urlsafe_char (sextets bs)).
Proof.
  rewrite urlsafe_b64encode_sextets. apply rstrip_by_app.
  - apply (all_chars_impl url_safe).
    + intros c Hc. rewrite (url_safe_not_padding c Hc). reflexivity.
    + apply all_chars_sextets, sextets_bounded.
  - apply padding_all.
Qed.

Lemma string_length_of_list (l : list ascii) :
  String.length (string_of_list_ascii l) = length l.
Proof. induction l as [|c l IH]; [reflexivity | cbn; rewrite IH; reflexivity]. Qed.

Lemma to_bytes_little_length (len : nat) (n : N) :
  length (to_bytes_little len n) = len.
Proof. revert n. induction len as [|k IH]; intros n; [reflexivity | cbn; rewrite IH; reflexivity]. Qed.

Lemma uuid_bytes_length (u : N) : length (uuid_bytes u) = 16.
Proof. unfold uuid_bytes, int_to_bytes. rewrite length_rev. apply to_bytes_little_length. Qed.

Lemma contains_all_chars (c : ascii) (p : ascii -> bool) (s : string) :
  p c = false -> all_chars p s = true -> Py.contains c s = false.
Proof.
  intros Hc. induction s as [|d s IH]; [reflexivity|].
  cbn. intros H. apply andb_prop in H as [Hd Hs]. rewrite (IH Hs), orb_false_r.
  destruct (Ascii.eqb_spec c d) as [->|]; [congruence | reflexivity].
Qed.

Lemma to_N_inj (a b : byte) : Byte.to_N a = Byte.to_N b -> a = b.
Proof.
  intros H. pose proof (of_to_N a) as Ha. rewrite H, of_to_N in Ha.
  congruence.
Qed.

(** Quotient and remainder of [x] by the constant [d], as linear facts
    about two fresh variables. *)
Ltac euclid x d :=
  pose proof (N.div_mod x d ltac:(discriminate));
  pose proof (N.mod_lt x d ltac:(discriminate));
  generalize dependent (N.div x d); generalize dependent (N.modulo x d);
  intros.

Lemma sextet_group_inj (x y z x' y' z' : N) :
  (x <= 255 -> y <= 255 -> z <= 255 -> x' <= 255 -> y' <= 255 -> z' <= 255 ->
   x / 4 = x' / 4 ->
   (x mod 4) * 16 + y / 16 = (x' mod 4) * 16 + y' / 16 ->
   (y mod 16) * 4 + z / 64 = (y' mod 16) * 4 + z' / 64 ->
   z mod 64 = z' mod 64 ->
   x = x' /\ y = y' /\ z = z')%N.
Proof.
  intros.
  euclid x 4%N. euclid x' 4%N. euclid y 16%N. euclid y' 16%N.
  euclid z 64%N. euclid z' 64%N.
  lia.
Qed.

Lemma sextets_inj (bs bs' : list byte) :
  length bs = length bs' -> sextets bs = sextets bs' -> bs = bs'.
Proof.
  revert bs'.
  induction bs as [bs IH] using (induction_ltof1 _ (@length byte)).
  intros bs' Hlen Hsx.
  destruct bs as [|a [|b [|c rest]]];
    destruct bs' as [|a' [|b' [|c' rest']]]; try discriminate; try reflexivity.
  - cbn in Hsx. injection Hsx as H0 H1.
    pose proof (to_N_bounded a). pose proof (to_N_bounded a').
    destruct (sextet_group_inj (to_N a) 0 0 (to_N a') 0 0) as (Ha & _);
      try assumption; try reflexivity; try discriminate.
    + cbn. lia.
    + apply to_N_inj in Ha. congruence.
  - cbn in Hsx. injection Hsx as H0 H1 H2.
    pose proof (to_N_bounded a). pose proof (to_N_bounded a').
    pose proof (to_N_bounded b). pose proof (to_N_bounded b').
    destruct (sextet_group_inj (to_N a) (to_N b) 0 (to_N a') (to_N b') 0)
      as (Ha & Hb & _); try assumption; try reflexivity; try discriminate.
    + cbn. lia.
    + apply to_N_inj in Ha, Hb. congruence.
  - cbn [sextets] in Hsx. cbn zeta in Hsx. injection Hsx as H0 H1 H2 H3 Hrest.
    pose proof (to_N_bounded a). pose proof (to_N_bounded a').
    pose proof (to_N_bounded b). pose proof (to_N_bounded b').
    pose proof (to_N_bounded c). pose proof (to_N_bounded c').
    destruct (sextet_group_inj (to_N a) (to_N b) (to_N c) (to_N a') (to_N b') (to_N c'))
      as (Ha & Hb & Hc); try assumption.
    apply to_N_inj in Ha, Hb, Hc. subst a' b' c'.
    do 3 f_equal.
    apply IH; [unfold ltof; cbn; lia | cbn in Hlen; lia | exact Hrest].
Qed.

Lemma urlsafe_chars_inj (l l' : list N) :
  Forall (fun n => (n < 64)%N) l ->
  Forall (fun n => (n < 64)%N) l' ->
  map urlsafe_char l = map urlsafe_char l' -> l = l'.
Proof.
  intros Hl. revert l'. induction Hl as [|n l Hn _ IH]; intros l' Hl' H.
  - destruct l'; [reflexivity | discriminate].
  - destruct Hl' as [|n' l' Hn' Hl']; [discriminate|].
    cbn in H. injection H as Hc Hrest.
    f_equal; [|apply IH; assumption].
    rewrite <- (urlsafe_index_char n Hn), <- (urlsafe_index_char n' Hn'), Hc.
    reflexivity.
Qed.

Lemma string_of_list_ascii_inj (l l' : list ascii) :
  string_of_list_ascii l = string_of_list_ascii l' -> l = l'.
Proof.
  intros H. apply (f_equal list_ascii_of_string) in H.
  rewrite !list_ascii_of_string_of_list_ascii in H. exact H.
Qed.

Lemma byte_of_N_value (n : N) : Byte.to_N (byte_of_N n) = (n mod 256)%N.
Proof.
  unfold byte_of_N. destruct (Byte.of_N (n mod 256)) as [b|] eqn:E.
  - apply to_of_N, E.
  - apply of_N_None_iff in E. pose proof (N.mod_lt n 256). lia.
Qed.

Lemma value_little_to_bytes (len : nat) (n : N) :
  value_little (to_bytes_little len n) = (n mod 256 ^ N.of_nat len)%N.
Proof.
  revert n. induction len as [|k IH]; intros n.
  - cbn. rewrite N.mod_1_r. reflexivity.
  - cbn [to_bytes_little value_little fold_right].
    fold (value_little (to_bytes_little k (n / 256))).
    rewrite IH, byte_of_N_value, Nat2N.inj_succ, N.pow_succ_r', N.Div0.mod_mul_r.
    reflexivity.
Qed.

Lemma int_from_bytes_rev (bs : list byte) :
  int_from_bytes (rev bs) = value_little bs.
Proof.
  unfold int_from_bytes, value_little.
  induction bs as [|b bs IH]; [reflexivity|].
  cbn [rev fold_right]. rewrite fold_left_app, IH. cbn [fold_left]. lia.
Qed.

(** Reading back the bytes of an integer gives the integer, reduced to their width. *)
Lemma int_from_to_bytes (len : nat) (n : N) :
  int_from_bytes (int_to_bytes len n) = (n mod 256 ^ N.of_nat len)%N.
Proof. unfold int_to_bytes. rewrite int_from_bytes_rev. apply value_little_to_bytes. Qed.

Lemma uuid_bytes_inj (u u' : N) :
  (u < 2 ^ 128)%N -> (u' < 2 ^ 128)%N -> uuid_bytes u = uuid_bytes u' -> u = u'.
Proof.
  intros Hu Hu' H. apply (f_equal int_from_bytes) in H.
  unfold uuid_bytes in H. rewrite !int_from_to_bytes in H.
  change (256 ^ N.of_nat 16)%N with (2 ^ 128)%N in H.
  rewrite !N.mod_small in H by assumption. exact H.
Qed.

Lemma int_from_bytes_below (bs : list byte) :
  (int_from_bytes bs < 256 ^ N.of_nat (length bs))%N.
Proof.
  unfold int_from_bytes.
  enough (G : forall acc,
             (fold_left (fun acc b => acc * 256 + Byte.to_N b) bs acc
              < (acc + 1) * 256 ^ N.of_nat (length bs))%N).
  { specialize (G 0%N). lia. }
  induction bs as [|b bs IH]; intros acc.
  - cbn. lia.
  - cbn [fold_left length]. rewrite Nat2N.inj_succ, N.pow_succ_r'.
    pose proof (to_N_bounded b) as Hb.
    eapply N.lt_le_trans; [apply IH|].
    rewrite N.mul_assoc.
    apply N.mul_le_mono_r. lia.
Qed.

Lemma log2_below_128 (a : N) : (a < 2 ^ 128)%N -> (N.log2 a < 128)%N.
Proof.
  intros H. destruct (N.eq_0_gt_0_cases a) as [->|Hpos]; [reflexivity|].
  apply N.log2_lt_pow2; assumption.
Qed.

Lemma lor_below_128 (a b : N) :
  (a < 2 ^ 128)%N -> (b < 2 ^ 128)%N -> (N.lor a b < 2 ^ 128)%N.
Proof.
  intros Ha Hb. destruct (N.eq_0_gt_0_cases (N.lor a b)) as [->|Hpos]; [reflexivity|].
  apply N.log2_lt_pow2; [assumption|]. rewrite N.log2_lor.
  apply N.max_lub_lt; apply log2_below_128; assumption.
Qed.

(** The value [uuid4] builds from sixteen bytes fits in 128 bits. *)
Lemma uuid4_below (rnd : list byte) :
  length rnd = 16 -> (uuid4 rnd < 2 ^ 128)%N.
Proof.
  intros Hlen. pose proof (int_from_bytes_below rnd) as H.
  rewrite Hlen in H. change (256 ^ N.of_nat 16)%N with (2 ^ 128)%N in H.
  unfold uuid4. cbv zeta.
  apply lor_below_128; [|reflexivity].
  eapply N.le_lt_trans; [apply N.ldiff_le_l|].
  apply lor_below_128; [|reflexivity].
  eapply N.le_lt_trans; [apply N.ldiff_le_l|]. exact H.
Qed.

(** The token is the characters of the 22 six-bit groups of the UUID's bytes. *)
Lemma encode_sextets (u : N) :
  encode u = string_of_list_ascii (map urlsafe_char (sextets (uuid_bytes u))).
Proof. apply unpadded_sextets. Qed.

Lemma encode_inj (u u' : N) :
  (u < 2 ^ 128)%N -> (u' < 2 ^ 128)%N -> encode u = encode u' -> u = u'.
Proof.
  intros Hu Hu' H. rewrite !encode_sextets in H.
  apply string_of_list_ascii_inj, urlsafe_chars_inj in H;
    try apply sextets_bounded.
  apply sextets_inj in H; [|rewrite !uuid_bytes_length; reflexivity].
  apply uuid_bytes_inj; assumption.
Qed.

(** [uuid4] writes version 4 into bits 76..79 and the variant [10] into
    bits 62..63, whatever was drawn there. *)
Lemma uuid4_fixed_bits (rnd : list byte) :
  N.testbit (uuid4 rnd) 79 = false /\ N.testbit (uuid4 rnd) 78 = true /\
  N.testbit (uuid4 rnd) 77 = false /\ N.testbit (uuid4 rnd) 76 = false /\
  N.testbit (uuid4 rnd) 63 = true /\ N.testbit (uuid4 rnd) 62 = false.
Proof.
  unfold uuid4. cbv zeta.
  repeat split; repeat (rewrite N.lor_spec || rewrite N.ldiff_spec);
    match goal with
    | |- context [N.testbit (int_from_bytes rnd) ?k] =>
        destruct (N.testbit (int_from_bytes rnd) k)
    end; vm_compute; reflexivity.
Qed.

End TokenFacts.

(** C3 (as amended). A token generated by [/protect] is computed from the
    sixteen bytes (128 bits) [uuid4] draws; it has exactly 22 characters,
    all of them URL-safe, none of them the padding character; and two
    generated tokens are equal exactly when the two UUIDs are equal: the
    encoding itself never merges two UUIDs. *)
Theorem generated_token_shape (rnd rnd' : list byte) :
  length rnd = 16 -> length rnd' = 16 ->
  String.length (Token.generate rnd) = 22
  /\ Token.all_chars Token.url_safe (Token.generate rnd) = true
  /\ Py.contains "=" (Token.generate rnd) = false
  /\ (Token.generate rnd = Token.generate rnd' <-> Token.uuid4 rnd = Token.uuid4 rnd').
Proof.
  intros Hlen Hlen'. unfold Token.generate.
  assert (Hsafe : Token.all_chars Token.url_safe (Token.encode (Token.uuid4 rnd)) = true).
  { rewrite encode_sextets. apply all_chars_sextets, sextets_bounded. }
  split; [|split; [|split]].
  - rewrite encode_sextets, string_length_of_list, length_map.
    apply sextets_length, uuid_bytes_length.
  - exact Hsafe.
  - apply (contains_all_chars _ Token.url_safe); [reflexivity | exact Hsafe].
  - split.
    + apply encode_inj; apply uuid4_below; assumption.
    + intros ->. reflexivity.
Qed.

Lemma generated_token_shape_witness :
  String.length (Token.generate Scenario.draw_a) = 22
  /\ Token.all_chars Token.url_safe (Token.generate Scenario.draw_a) = true
  /\ Py.contains "=" (Token.generate Scenario.draw_a) = false
  /\ (Token.generate Scenario.draw_a = Token.generate Scenario.draw_b <->
      Token.uuid4 Scenario.draw_a = Token.uuid4 Scenario.draw_b).
Proof.
  apply (generated_token_shape Scenario.draw_a Scenario.draw_b); reflexivity.
Defined.

(** C3, the part that fails: generation is not collision-free.  Two
    different draws of sixteen random bytes give the same token, because
    [uuid4] overwrites the bits in which they differ; the second
    [/protect] then stops at the registry's primary key. *)
Lemma token_collision :
  Scenario.draw_a <> Scenario.draw_b
  /\ length Scenario.draw_a = 16 /\ length Scenario.draw_b = 16
  /\ Token.generate Scenario.draw_a = Token.generate Scenario.draw_b
  /\ outcome
       (protect_command (Scenario.with_draw Scenario.draw_b Scenario.open_world)
          (Scenario.protect Scenario.bob ["https://t.me/other"])
          (final (protect_command (Scenario.with_draw Scenario.draw_a Scenario.open_world)
                    (Scenario.protect Scenario.alice ["https://t.me/mygroup"])
                    Scenario.empty_store)))
     = Raise DuplicateKeyError.
Proof.
  split; [discriminate|]. repeat split; vm_compute; reflexivity.
Qed.

(** ** Link creation *)

Section ProtectFacts.

Variable w : World.

(** The gate, as the handlers see it: an answer, the store untouched, the
    queries on the trace. *)
Lemma gate_passed (user : Z) (s : Store) :
  Forall (admits w user) (get_support_channels w) ->
  check_channel_membership w user s =
    (Ok true, s, map (query user) (queried w user (get_support_channels w))).
Proof.
  intros H. rewrite check_channel_membership_run, (forallb_admits _ _ _ H).
  reflexivity.
Qed.

(** Resolving an invite link touches the channel cache only. *)
Lemma get_channel_invite_link_frame (ch : string) (s : Store) :
  let s' := final (get_channel_invite_link w ch s) in
  links_collection s' = links_collection s /\
  users_collection s' = users_collection s /\
  user_data s' = user_data s.
Proof.
  unfold get_channel_invite_link, bind, get, try_except, emit, of_res, modify, ret, final.
  destruct (cached_invite_link _ ch); cbn; [auto|].
  destruct (create_chat_invite_link w (to_chat_id ch)) as [l|e]; cbn; [auto|].
  destruct (except_BadRequest e); cbn; auto.
Qed.

Lemma join_rows_frame (channels : list string) (s : Store) :
  let s' := final (join_rows w channels s) in
  links_collection s' = links_collection s /\
  users_collection s' = users_collection s /\
  user_data s' = user_data s.
Proof.
  cbv zeta. revert s. induction channels as [|ch rest IH]; intros s; [cbn; auto|].
  cbn [join_rows]. unfold bind, final.
  pose proof (get_channel_invite_link_frame ch s) as Hch.
  cbv zeta in Hch. unfold final in Hch.
  destruct (get_channel_invite_link w ch s) as [[[l|e] s1] t1];
    cbn [fst snd] in Hch |- *; [|exact Hch].
  specialize (IH s1). unfold final in IH.
  destruct (join_rows w rest s1) as [[[rows|e] s2] t2];
    cbn [fst snd ret] in IH |- *;
    destruct Hch as (<- & <- & <-); exact IH.
Qed.

Lemma build_join_keyboard_frame (encoded_id : option string) (s : Store) :
  let s' := final (build_join_keyboard w encoded_id s) in
  links_collection s' = links_collection s /\
  users_collection s' = users_collection s /\
  user_data s' = user_data s.
Proof.
  cbv zeta. unfold build_join_keyboard, bind, final.
  pose proof (join_rows_frame (get_support_channels w) s) as H.
  cbv zeta in H. unfold final in H.
  destruct (join_rows w (get_support_channels w) s) as [[[rows|e] s1] t1];
    cbn [fst snd ret] in H |- *; exact H.
Qed.

(** [/protect] never touches the registry when the gate refuses. *)
Lemma protect_gated_frame (u : CommandUpdate) (s : Store) :
  forallb (passes w (id (effective_user u))) (get_support_channels w) = false ->
  links_collection (final (protect_command w u s)) = links_collection s.
Proof.
  intros Hgate. unfold protect_command, bind, final.
  rewrite check_channel_membership_run, Hgate. cbn [negb].
  pose proof (build_join_keyboard_frame None s) as H.
  cbv zeta in H. unfold final in H.
  destruct (build_join_keyboard w None s) as [[[kb|e] s1] t1];
    cbn [fst snd emit] in H |- *; apply H.
Qed.

(** [/protect <url> ...] once the gate has passed and the token is new. *)
Lemma protect_passed (u : CommandUpdate) (destination : string) (rest : list string)
    (s : Store) :
  Forall (admits w (id (effective_user u))) (get_support_channels w) ->
  args u = destination :: rest ->
  Py.startswith "https://t.me/" destination = true ->
  links_collection s !! Token.generate (os_urandom16 w) = None ->
  protect_command w u s =
    (match get_me w with Ok _ => Ok tt | Raise e => Raise e end,
     with_links (insert (Token.generate (os_urandom16 w)) (new_link w u destination)) s,
     map (query (id (effective_user u)))
         (queried w (id (effective_user u)) (get_support_channels w)) ++
     GetMe ::
     match get_me w with
     | Ok bot =>
         [ReplyText ("✅ Protected Link:" +:+ nl +:+ "`" +:+
                     share_link bot (Token.generate (os_urandom16 w)) +:+ "`")
            None (Some MARKDOWN)]
     | Raise _ => []
     end)%list.
Proof.
  intros Hgate Hargs Hprefix Hfresh.
  unfold protect_command, bind at 1. rewrite (gate_passed _ _ Hgate).
  cbn [negb]. rewrite Hargs, Hprefix. cbn [negb].
  unfold insert_one, bind, get, put, emit, of_res. cbv beta iota. rewrite Hfresh.
  fold (new_link w u destination).
  destruct (get_me w) as [bot|e]; cbn; rewrite ?app_nil_r; reflexivity.
Qed.

(** [/protect] when the generated token is already a key of the registry. *)
Lemma protect_duplicate (u : CommandUpdate) (destination : string) (rest : list string)
    (s : Store) (d : ProtectedLink) :
  forallb (passes w (id (effective_user u))) (get_support_channels w) = true ->
  args u = destination :: rest ->
  Py.startswith "https://t.me/" destination = true ->
  links_collection s !! Token.generate (os_urandom16 w) = Some d ->
  protect_command w u s =
    (Raise DuplicateKeyError, s,
     map (query (id (effective_user u)))
         (queried w (id (effective_user u)) (get_support_channels w))).
Proof.
  intros Hgate Hargs Hprefix Hpresent.
  unfold protect_command, bind at 1.
  rewrite check_channel_membership_run, Hgate. cbn [negb].
  rewrite Hargs, Hprefix. cbn [negb].
  unfold insert_one, bind, get, raise. cbv beta iota. rewrite Hpresent.
  rewrite app_nil_r. reflexivity.
Qed.

(** [/protect] without a usable argument, once the gate has passed. *)
Lemma protect_usage (u : CommandUpdate) (s : Store) :
  Forall (admits w (id (effective_user u))) (get_support_channels w) ->
  (args u = [] \/
   exists a rest, args u = a :: rest /\ Py.startswith "https://t.me/" a = false) ->
  protect_command w u s =
    (Ok tt, s,
     map (query (id (effective_user u)))
         (queried w (id (effective_user u)) (get_support_channels w)) ++
     [ReplyText usage None None])%list.
Proof.
  intros Hgate Hargs.
  unfold protect_command, bind at 1. rewrite (gate_passed _ _ Hgate). cbn [negb].
  destruct Hargs as [-> | (a & rest & -> & ->)]; reflexivity.
Qed.

End ProtectFacts.

Lemma queries_are_no_reply (user : Z) (l : list string) :
  existsb is_reply (map (query user) l) = false.
Proof. induction l; [reflexivity | assumption]. Qed.

(** C4 (as amended). For a requester who passes the gate and sends
    [/protect] with a first argument starting with [https://t.me/]:
    - when the generated token is not yet a key of the registry, exactly
      one record is added, under that token, with the argument as
      destination, the requester as creator, [active = true] and
      [clicks = 0]; when the bot's identity is obtained, the reply carries
      [https://t.me/<bot>?start=<token>] with that same token; when
      [get_me] raises, the exception leaves the handler, the record stays
      and no reply is sent;
    - when the generated token is already a key, [insert_one] raises
      [DuplicateKeyError]: nothing is inserted and nothing is replied. *)
Theorem protect_creates_link (w : World) (u : CommandUpdate) (destination : string)
    (rest : list string) (s : Store) :
  Forall (admits w (id (effective_user u))) (get_support_channels w) ->
  args u = destination :: rest ->
  Py.startswith "https://t.me/" destination = true ->
  (links_collection s !! Token.generate (os_urandom16 w) = None ->
   links_collection (final (protect_command w u s)) =
     <[Token.generate (os_urandom16 w) :=
         {| telegram_link := destination;
            created_by := id (effective_user u);
            created_at := now w;
            active := true;
            clicks := 0 |}]> (links_collection s)
   /\ (forall bot, get_me w = Ok bot ->
        outcome (protect_command w u s) = Ok tt /\
        List.last (trace (protect_command w u s)) GetMe =
          ReplyText ("✅ Protected Link:" +:+ nl +:+ "`" +:+
                     ("https://t.me/" +:+ bot +:+ "?start=" +:+
                      Token.generate (os_urandom16 w)) +:+ "`")
            None (Some MARKDOWN))
   /\ (forall e, get_me w = Raise e ->
        outcome (protect_command w u s) = Raise e /\
        existsb is_reply (trace (protect_command w u s)) = false))
  /\ (forall d, links_collection s !! Token.generate (os_urandom16 w) = Some d ->
       protect_command w u s =
         (Raise DuplicateKeyError, s,
          map (query (id (effective_user u)))
              (queried w (id (effective_user u)) (get_support_channels w)))).
Proof.
  intros Hgate Hargs Hprefix. split.
  - intros Hfresh.
    rewrite (protect_passed w u destination rest s) by assumption.
    split; [reflexivity|]. split.
    + intros bot Hbot. rewrite Hbot. unfold outcome, trace. cbn [fst snd].
      split; [reflexivity|]. apply last_after.
    + intros e He. rewrite He. unfold outcome, trace. cbn [fst snd].
      split; [reflexivity|].
      rewrite existsb_app, queries_are_no_reply. reflexivity.
  - intros d Htaken.
    apply (protect_duplicate w u destination rest s d); try assumption.
    apply forallb_admits, Hgate.
Qed.

Lemma protect_creates_link_witness :
  links_collection
    (final (protect_command Scenario.gated_world
              (Scenario.protect Scenario.alice ["https://t.me/mygroup"])
              Scenario.empty_store)) =
    {[ "AAAAAAAAQACAAAAAAAAAAA" :=
         {| telegram_link := "https://t.me/mygroup"; created_by := 1001;
            created_at := 1700000000; active := true; clicks := 0 |} ]}.
Proof.
  apply (proj1 (proj1 (protect_creates_link Scenario.gated_world
                         (Scenario.protect Scenario.alice ["https://t.me/mygroup"])
                         "https://t.me/mygroup" [] Scenario.empty_store
                         ltac:(repeat constructor; exists MEMBER;
                               split; [reflexivity | auto])
                         eq_refl eq_refl)
                  eq_refl)).
Defined.

(** C4, the part that fails: a requester who passes the gate and sends
    [/protect] with a valid argument does not always get a record and a
    reply.  When the generated token is already in the registry the
    handler raises, nothing is inserted and nothing is replied; when the
    bot's identity cannot be fetched the record is stored but no reply is
    sent. *)
Lemma protect_without_record_or_reply :
  protect_command Scenario.gated_world
    (Scenario.protect Scenario.alice ["https://t.me/mygroup"]) Cases.taken_store =
    (Raise DuplicateKeyError, Cases.taken_store,
     [GetChatMember (ChatStr "@grouptest") 1001])
  /\ outcome (protect_command Cases.offline_world
                (Scenario.protect Scenario.alice ["https://t.me/mygroup"])
                Scenario.empty_store) = Raise TimedOut
  /\ trace (protect_command Cases.offline_world
              (Scenario.protect Scenario.alice ["https://t.me/mygroup"])
              Scenario.empty_store) =
     [GetChatMember (ChatStr "@grouptest") 1001; GetMe]
  /\ links_collection
       (final (protect_command Cases.offline_world
                 (Scenario.protect Scenario.alice ["https://t.me/mygroup"])
                 Scenario.empty_store)) !! Token.generate Scenario.all_zero =
     Some {| telegram_link := "https://t.me/mygroup"; created_by := 1001;
             created_at := 1700000000; active := true; clicks := 0 |}.
Proof. repeat split; vm_compute; reflexivity. Qed.

(** C8 (as amended). For a requester who passes the gate, [/protect] with
    no argument, or with a first argument that does not start with
    [https://t.me/], replies with the usage help and leaves the whole store
    as it was; and whatever the gate says, such a [/protect] creates no
    ProtectedLink record.  The prefix is all the code tests: for a
    requester who passes the gate, a first argument that starts with
    [https://t.me/] is stored as destination whatever follows the prefix
    (under the generated token, when that token is new). *)
Theorem protect_rejects_bad_argument (w : World) (u : CommandUpdate) (s : Store) :
  ((args u = [] \/
    exists a rest, args u = a :: rest /\ Py.startswith "https://t.me/" a = false) ->
   (Forall (admits w (id (effective_user u))) (get_support_channels w) ->
    protect_command w u s =
      (Ok tt, s,
       map (query (id (effective_user u)))
           (queried w (id (effective_user u)) (get_support_channels w)) ++
       [ReplyText usage None None])%list)
   /\ links_collection (final (protect_command w u s)) = links_collection s)
  /\ (forall a rest,
       args u = a :: rest ->
       Py.startswith "https://t.me/" a = true ->
       Forall (admits w (id (effective_user u))) (get_support_channels w) ->
       links_collection s !! Token.generate (os_urandom16 w) = None ->
       links_collection (final (protect_command w u s))
         !! Token.generate (os_urandom16 w) =
         Some {| telegram_link := a;
                 created_by := id (effective_user u);
                 created_at := now w;
                 active := true;
                 clicks := 0 |}).
Proof.
  split.
  - intros Hargs. split.
    + intros Hgate. apply protect_usage; assumption.
    + destruct (forallb (passes w (id (effective_user u))) (get_support_channels w))
        eqn:Hgate.
      * rewrite protect_usage; [reflexivity | | assumption].
        apply Forall_forall. intros ch Hin. apply passes_iff.
        rewrite forallb_forall in Hgate. apply Hgate, list_elem_of_In, Hin.
      * apply protect_gated_frame, Hgate.
  - intros a rest Hargs Hprefix Hgate Hfresh.
    rewrite (protect_passed w u a rest s) by assumption.
    unfold final, with_links. cbn [fst snd links_collection].
    apply lookup_insert_eq.
Qed.

Lemma protect_rejects_bad_argument_witness :
  protect_command Scenario.gated_world (Scenario.protect Scenario.alice ["mygroup"])
    Scenario.empty_store =
    (Ok tt, Scenario.empty_store,
     [GetChatMember (ChatStr "@grouptest") 1001; ReplyText usage None None]).
Proof.
  apply (proj1 (proj1 (protect_rejects_bad_argument Scenario.gated_world
                         (Scenario.protect Scenario.alice ["mygroup"])
                         Scenario.empty_store)
                  (or_intror (ex_intro _ "mygroup"
                                (ex_intro _ [] (conj eq_refl eq_refl)))))).
  repeat constructor. exists MEMBER. split; [reflexivity | auto].
Defined.

(** C8, the parts that fail.  A requester whom the gate refuses and who
    sends [/protect] with no argument gets the join prompt, not the usage
    help, and the channel cache is written on the way.  And for a requester
    who passes the gate, an argument that is no well-formed URL but starts
    with the prefix is not answered with the usage help: it is stored, as
    is the bare prefix. *)
Lemma protect_no_argument_gated :
  trace (protect_command Scenario.gated_world (Scenario.protect Scenario.bob [])
           Scenario.empty_store) =
    [GetChatMember (ChatStr "@grouptest") 1002;
     CreateChatInviteLink (ChatStr "@grouptest");
     ReplyText "🔐 Join all support channels first."
       (Some [[join_button "https://t.me/+AbCdEf"]; [check_button "check_join"]]) None]
  /\ channels_collection
       (final (protect_command Scenario.gated_world (Scenario.protect Scenario.bob [])
                 Scenario.empty_store)) !! "@grouptest" =
     Some {| invite_link := Some "https://t.me/+AbCdEf" |}
  /\ channels_collection Scenario.empty_store !! "@grouptest" = None
  /\ Url.well_formed "https://t.me/%zz<>" = false
  /\ protect_command Scenario.gated_world
       (Scenario.protect Scenario.alice ["https://t.me/%zz<>"]) Scenario.empty_store =
     (Ok tt,
      with_links (insert (Token.generate Scenario.all_zero)
                    {| telegram_link := "https://t.me/%zz<>"; created_by := 1001;
                       created_at := 1700000000; active := true; clicks := 0 |})
        Scenario.empty_store,
      [GetChatMember (ChatStr "@grouptest") 1001; GetMe;
       ReplyText ("✅ Protected Link:" +:+ nl +:+ "`" +:+
                  ("https://t.me/linkbot?start=" +:+ Token.generate Scenario.all_zero)
                  +:+ "`") None (Some MARKDOWN)])
  /\ links_collection
       (final (protect_command Scenario.gated_world
                 (Scenario.protect Scenario.alice ["https://t.me/"])
                 Scenario.empty_store)) !! Token.generate Scenario.all_zero =
     Some {| telegram_link := "https://t.me/"; created_by := 1001;
             created_at := 1700000000; active := true; clicks := 0 |}.
Proof. repeat split; vm_compute; reflexivity. Qed.

(** ** Broadcast *)

Section BroadcastFacts.

Variable w : World.

Lemma broadcast_loop_run (pending : option Message) (users : list UserRecord)
    (success : Z) (s : Store) :
  broadcast_loop w pending users success s =
    (Ok (success + Z.of_nat (length (List.filter (delivered w pending) users)))%Z, s,
     flat_map (attempt w pending) users).
Proof.
  revert success. induction users as [|u rest IH]; intros success.
  - cbn. rewrite Z.add_0_r. reflexivity.
  - cbn [broadcast_loop List.filter flat_map].
    unfold bind at 1, try_except, copy, bind, emit, of_res, raise, attempt, delivered.
    fold (delivered w pending).
    destruct pending as [m|]; cbn.
    + destruct (copy_result w m (user_id u)) as [[]|e]; cbn.
      * rewrite IH. cbn [length].
        rewrite Nat2Z.inj_succ, <- Z.add_1_l, Z.add_assoc. reflexivity.
      * rewrite IH. reflexivity.
    + rewrite IH. reflexivity.
Qed.

Lemma copies_of_attempts (m : Message) (users : list UserRecord) :
  List.filter is_copy (flat_map (attempt w (Some m)) users) =
    map (fun u => Copy m (user_id u)) users.
Proof.
  induction users as [|u rest IH]; [reflexivity|].
  cbn [flat_map map]. unfold attempt at 1.
  destruct (delivered w (Some m) u); cbn; rewrite IH; reflexivity.
Qed.

End BroadcastFacts.

(** C5 (as amended). When [handle_broadcast_confirmation] receives the
    Cancel callback it acknowledges the query, edits the prompt to the
    cancellation notice and makes no other client call, so no message is
    sent to any recipient; the store is left exactly as it was. *)
Theorem cancel_sends_nothing (w : World) (q : CallbackQuery) (s : Store) :
  data q = "cancel_broadcast" ->
  handle_broadcast_confirmation w q s =
    (Ok tt, s, [Answer None false; EditText "❌ Broadcast cancelled" None]).
Proof.
  intros Hdata. unfold handle_broadcast_confirmation, bind, emit.
  rewrite Hdata. reflexivity.
Qed.

Lemma cancel_sends_nothing_witness :
  handle_broadcast_confirmation Scenario.flaky_world
    (Scenario.press Scenario.alice "cancel_broadcast") Scenario.pending_store =
    (Ok tt, Scenario.pending_store,
     [Answer None false; EditText "❌ Broadcast cancelled" None]).
Proof.
  apply (cancel_sends_nothing Scenario.flaky_world
           (Scenario.press Scenario.alice "cancel_broadcast") Scenario.pending_store).
  reflexivity.
Defined.

(** C5, the part that fails: Cancel does not discard the stashed payload.
    After Cancel the admin's slot still holds it, and a Confirm that
    arrives afterwards delivers it. *)
Lemma cancel_keeps_pending :
  user_data
    (final (handle_broadcast_confirmation Scenario.flaky_world
              (Scenario.press Scenario.alice "cancel_broadcast")
              Scenario.pending_store)) !! 1001%Z = Some Scenario.payload
  /\ List.filter is_copy
       (trace (handle_broadcast_confirmation Scenario.flaky_world
                 (Scenario.press Scenario.alice "confirm_broadcast")
                 (final (handle_broadcast_confirmation Scenario.flaky_world
                           (Scenario.press Scenario.alice "cancel_broadcast")
                           Scenario.pending_store)))) =
     [Copy Scenario.payload 1; Copy Scenario.payload 2; Copy Scenario.payload 3].
Proof. split; vm_compute; reflexivity. Qed.

(** C6. A confirmed broadcast over the N known users: no failure of a
    copy attempt escapes the handler, the loop goes through all N users
    (with a payload stashed, the copy calls are exactly one per user, in
    order, whatever the earlier attempts did), and the completion message
    reports K, the number of attempts that succeeded. *)
Theorem broadcast_reports_successes (w : World) (q : CallbackQuery) (s : Store) :
  String.eqb (data q) "cancel_broadcast" = false ->
  outcome (handle_broadcast_confirmation w q s) = Ok tt
  /\ final (handle_broadcast_confirmation w q s) = s
  /\ (forall m, user_data s !! id (from_user q) = Some m ->
       List.filter is_copy (trace (handle_broadcast_confirmation w q s)) =
         map (fun u => Copy m (user_id u)) (users_collection s))
  /\ List.last (trace (handle_broadcast_confirmation w q s)) GetMe =
       EditText ("✅ Broadcast done: " +:+
                 Py.str_of_Z
                   (Z.of_nat
                      (length (List.filter
                                 (delivered w (user_data s !! id (from_user q)))
                                 (users_collection s)))) +:+
                 " users") None.
Proof.
  intros Hdata.
  unfold handle_broadcast_confirmation, bind at 1, emit at 1.
  rewrite Hdata. unfold bind at 1, get. unfold bind, emit.
  rewrite broadcast_loop_run. unfold outcome, final, trace. cbn [fst snd].
  repeat split.
  - intros m Hm. rewrite Hm.
    cbn [app List.filter is_copy]. rewrite List.filter_app. cbn.
    rewrite app_nil_r. apply copies_of_attempts.
  - cbn [app]. rewrite app_comm_cons, last_last. reflexivity.
Qed.

Lemma broadcast_reports_successes_witness :
  List.last
    (trace (handle_broadcast_confirmation Scenario.flaky_world
              (Scenario.press Scenario.alice "confirm_broadcast")
              Scenario.pending_store)) GetMe =
    EditText "✅ Broadcast done: 2 users" None.
Proof.
  apply (proj2 (proj2 (proj2
           (broadcast_reports_successes Scenario.flaky_world
              (Scenario.press Scenario.alice "confirm_broadcast")
              Scenario.pending_store eq_refl)))).
Defined.

(** ** Invite links *)

(** C7 (as amended). On a cache miss, when creating the invite link fails
    with [BadRequest], [get_channel_invite_link] returns the direct URL
    [https://t.me/<channel id without leading '@'>] and leaves the cache
    (and the rest of the store) untouched; when it fails with any other
    exception, that exception reaches the caller, the store again
    untouched. *)
Theorem invite_link_fallback (w : World) (channel_id : string) (s : Store) (e : exn) :
  cached_invite_link (channels_collection s) channel_id = None ->
  create_chat_invite_link w (to_chat_id channel_id) = Raise e ->
  (e = BadRequest ->
   get_channel_invite_link w channel_id s =
     (Ok ("https://t.me/" +:+ Py.lstrip "@" channel_id), s,
      [CreateChatInviteLink (to_chat_id channel_id)]))
  /\ (e <> BadRequest ->
      get_channel_invite_link w channel_id s =
        (Raise e, s, [CreateChatInviteLink (to_chat_id channel_id)])).
Proof.
  intros Hmiss Hfail.
  unfold get_channel_invite_link, try_except, bind, get, emit, of_res.
  cbv beta iota. rewrite Hmiss, Hfail.
  split.
  - intros ->. reflexivity.
  - intros Hne. destruct e; try reflexivity. contradiction Hne. reflexivity.
Qed.

Lemma invite_link_fallback_witness :
  get_channel_invite_link Scenario.open_world "@grouptest" Scenario.empty_store =
    (Ok "https://t.me/grouptest", Scenario.empty_store,
     [CreateChatInviteLink (ChatStr "@grouptest")]).
Proof.
  apply (proj1 (invite_link_fallback Scenario.open_world "@grouptest"
                  Scenario.empty_store BadRequest eq_refl eq_refl)).
  reflexivity.
Defined.

(** C7, the part that fails: a failure of the chat client other than
    [BadRequest] is surfaced to the caller. *)
Lemma invite_link_forbidden_raises :
  get_channel_invite_link Scenario.forbidden_world "@grouptest" Scenario.empty_store =
    (Raise Forbidden, Scenario.empty_store,
     [CreateChatInviteLink (ChatStr "@grouptest")])
  /\ outcome (protect_command Scenario.forbidden_world
                (Scenario.protect Scenario.bob ["https://t.me/mygroup"])
                Scenario.empty_store) = Raise Forbidden.
Proof. split; vm_compute; reflexivity. Qed.

(** ** Re-check from a bare [/start] *)

(** C9, evaluated.  The keyboard a bare [/start] shows to a refused user
    carries the callback data [check_join]; that string contains an
    underscore, so when the user presses it after joining, the handler
    takes the token branch with the token [join], looks it up, and edits
    the prompt to the expired-link notice instead of the verification
    notice. *)
Lemma bare_recheck_reports_expired :
  List.last
    (trace (start Scenario.gated_world
              {| effective_user := Scenario.bob; args := []; reply_to_message := None |}
              Scenario.empty_store)) GetMe =
    ReplyText ("🔐 *Protected Access*" +:+ nl +:+ nl +:+
               "Please join **ALL channels below**, then press ✅ Check.")
      (Some [[join_button "https://t.me/+AbCdEf"]; [check_button "check_join"]])
      (Some MARKDOWN)
  /\ Py.contains "_" "check_join" = true
  /\ Py.last (Py.splitn "_" "check_join" 2) = "join"
  /\ button_callback Scenario.gated_world (Scenario.press Scenario.alice "check_join")
       Scenario.empty_store =
     (Ok tt, Scenario.empty_store,
      [Answer None false; GetChatMember (ChatStr "@grouptest") 1001;
       EditText "❌ Link expired" None]).
Proof. repeat split; vm_compute; reflexivity. Qed.

(** ** Broadcast initiation *)

(** C10. With [ADMIN_ID] unset the requester is compared with 0: every
    requester whose id is not 0 gets the admin-only denial, and nothing is
    stashed (the store is unchanged). *)
Theorem broadcast_denied_without_admin (w : World) (u : CommandUpdate) (s : Store) :
  environ w !! "ADMIN_ID" = None ->
  id (effective_user u) <> 0%Z ->
  broadcast_command w u s = (Ok tt, s, [ReplyText "❌ Admin only" None None]).
Proof.
  intros Hunset Hid. unfold broadcast_command, bind, admin_id. rewrite Hunset.
  cbn [ret]. apply Z.eqb_neq in Hid. rewrite Hid. reflexivity.
Qed.

Lemma broadcast_denied_without_admin_witness :
  broadcast_command Scenario.open_world
    {| effective_user := Scenario.alice; args := [];
       reply_to_message := Some Scenario.payload |}
    Scenario.empty_store =
    (Ok tt, Scenario.empty_store, [ReplyText "❌ Admin only" None None]).
Proof.
  apply (broadcast_denied_without_admin Scenario.open_world
           {| effective_user := Scenario.alice; args := [];
              reply_to_message := Some Scenario.payload |}
           Scenario.empty_store eq_refl).
  discriminate.
Defined.

(** ** Dispatch of callback queries *)

(** Every callback query is handled by [button_callback], the first
    callback handler registered, which has no pattern. *)
Lemma callback_goes_to_button_callback (w : World) (q : CallbackQuery) :
  first_match (handlers w) (CallbackUpdate q) = Some (button_callback w q).
Proof. reflexivity. Qed.

(** As registered, the Confirm and Cancel buttons of a broadcast never
    reach [handle_broadcast_confirmation]: the query is acknowledged by
    [button_callback] and nothing else happens; no prompt is edited, no
    copy is sent, the store is unchanged. *)
Theorem broadcast_buttons_shadowed (w : World) (user : User) (s : Store) :
  process_update w (CallbackUpdate {| from_user := user; data := "confirm_broadcast" |}) s =
    (Ok tt, s, [Answer None false])
  /\ process_update w (CallbackUpdate {| from_user := user; data := "cancel_broadcast" |}) s =
    (Ok tt, s, [Answer None false]).
Proof. split; reflexivity. Qed.

(** ** Presence tracking *)

(** [/start] records the requester before anything else, and nothing later
    in the handler touches the user directory: whatever the gate answers
    and whatever the arguments are, the directory after the run is the one
    before with the requester's record upserted. *)
Theorem start_records_presence (w : World) (u : CommandUpdate) (s : Store) :
  users_collection (final (start w u s)) =
    upsert_user
      {| user_id := id (effective_user u);
         username := user_username (effective_user u);
         first_name := user_first_name (effective_user u);
         last_active := now w |}
      (users_collection s).
Proof.
  unfold start, bind at 1, modify. unfold bind at 1.
  rewrite check_channel_membership_run.
  destruct (forallb _ _); cbn [negb].
  - destruct (args u) as [|token rest].
    + reflexivity.
    + unfold bind, get, final. cbv beta iota.
      destruct (find_one_active _ token); reflexivity.
  - unfold bind, final.
    match goal with
    | |- context [build_join_keyboard w ?e ?s1] =>
        pose proof (build_join_keyboard_frame w e s1) as H;
        cbv zeta in H; unfold final in H;
        destruct (build_join_keyboard w e s1) as [[[kb|e'] s2] t2]
    end; cbn [fst snd emit] in H |- *; destruct H as (_ & -> & _); reflexivity.
Qed.

(** ** The configured channel list *)

Section ChannelListFacts.

Lemma rstrip_by_fixed_tail (p : ascii -> bool) (c : ascii) (u : string) :
  Py.rstrip_by p (String c u) = String c u -> Py.rstrip_by p u = u.
Proof.
  cbn [Py.rstrip_by]. destruct (Py.rstrip_by p u) as [|d r] eqn:E.
  - destruct (p c); [discriminate|]. intros [= <-]. reflexivity.
  - intros [= <-]. reflexivity.
Qed.

Lemma rstrip_by_idem (p : ascii -> bool) (s : string) :
  Py.rstrip_by p (Py.rstrip_by p s) = Py.rstrip_by p s.
Proof.
  induction s as [|c s IH]; [reflexivity|].
  cbn [Py.rstrip_by]. destruct (Py.rstrip_by p s) as [|d r] eqn:E.
  - destruct (p c) eqn:Hc; [reflexivity|]. cbn. rewrite Hc. reflexivity.
  - cbn [Py.rstrip_by] in IH |- *. rewrite IH. reflexivity.
Qed.

Lemma lstrip_by_idem (p : ascii -> bool) (s : string) :
  Py.lstrip_by p (Py.lstrip_by p s) = Py.lstrip_by p s.
Proof.
  induction s as [|c s IH]; [reflexivity|].
  cbn [Py.lstrip_by]. destruct (p c) eqn:Hc; [exact IH|].
  cbn [Py.lstrip_by]. rewrite Hc. reflexivity.
Qed.

Lemma rstrip_by_lstrip_by (p : ascii -> bool) (t : string) :
  Py.rstrip_by p t = t -> Py.rstrip_by p (Py.lstrip_by p t) = Py.lstrip_by p t.
Proof.
  induction t as [|c t IH]; [reflexivity|].
  intros H. cbn [Py.lstrip_by]. destruct (p c); [|exact H].
  apply IH, (rstrip_by_fixed_tail p c), H.
Qed.

(** [strip] leaves a stripped string as it is. *)
Lemma strip_idem (s : string) : Py.strip (Py.strip s) = Py.strip s.
Proof.
  unfold Py.strip.
  rewrite (rstrip_by_lstrip_by _ _ (rstrip_by_idem _ s)).
  apply lstrip_by_idem.
Qed.

Lemma contains_lstrip_by (c : ascii) (p : ascii -> bool) (s : string) :
  Py.contains c s = false -> Py.contains c (Py.lstrip_by p s) = false.
Proof.
  induction s as [|d s IH]; [reflexivity|].
  intros H. cbn [Py.lstrip_by]. destruct (p d); [|exact H].
  cbn in H. apply orb_false_elim in H as [_ H]. apply IH, H.
Qed.

Lemma contains_rstrip_by (c : ascii) (p : ascii -> bool) (s : string) :
  Py.contains c s = false -> Py.contains c (Py.rstrip_by p s) = false.
Proof.
  induction s as [|d s IH]; [reflexivity|].
  intros H. cbn in H. apply orb_false_elim in H as [Hd H].
  specialize (IH H). cbn [Py.rstrip_by].
  destruct (Py.rstrip_by p s) as [|e r].
  - destruct (p d); [reflexivity|]. cbn. rewrite Hd. reflexivity.
  - cbn [Py.contains] in IH |- *. rewrite Hd, IH. reflexivity.
Qed.

(** No piece of [s.split(sep)] contains the separator. *)
Lemma split_pieces (sep : ascii) (s : string) :
  Forall (fun piece => Py.contains sep piece = false) (Py.split sep s).
Proof.
  induction s as [|c s IH]; [repeat constructor|].
  cbn [Py.split]. destruct (Ascii.eqb_spec c sep) as [->|Hne].
  - constructor; [reflexivity | exact IH].
  - assert (Hc : Ascii.eqb sep c = false) by (apply Ascii.eqb_neq; congruence).
    destruct (Py.split sep s) as [|h t].
    + constructor; [|constructor]. cbn. rewrite Hc. reflexivity.
    + apply Forall_cons in IH as [Hh Ht].
      constructor; [|exact Ht]. cbn. rewrite Hh, Hc. reflexivity.
Qed.

End ChannelListFacts.

(** Whatever [SUPPORT_CHANNELS] holds, every channel of the configured
    list is a non-empty string without surrounding blanks and without a
    comma; an unset variable gives the empty list. *)
Theorem get_support_channels_clean (w : World) :
  Forall (fun ch => ch <> EmptyString /\ Py.strip ch = ch /\ Py.contains "," ch = false)
         (get_support_channels w)
  /\ (environ w !! "SUPPORT_CHANNELS" = None -> get_support_channels w = []).
Proof.
  split.
  - unfold get_support_channels.
    destruct (negb _); [constructor|].
    apply Forall_forall. intros ch Hin.
    apply list_elem_of_In, in_map_iff in Hin as (piece & <- & Hin).
    apply filter_In in Hin as [Hin Htruthy].
    split; [|split].
    + intros E. rewrite E in Htruthy. discriminate.
    + apply strip_idem.
    + unfold Py.strip. apply contains_lstrip_by, contains_rstrip_by.
      pose proof (split_pieces "," (Py.strip (default EmptyString
                    (environ w !! "SUPPORT_CHANNELS")))) as H.
      rewrite Forall_forall in H. apply H, list_elem_of_In, Hin.
  - intros Hunset. unfold get_support_channels. rewrite Hunset. reflexivity.
Qed.

(** ** Chat identifiers *)

Lemma int_of_handle (r : string) : Py.int (String "@" r) = None.
Proof.
  unfold Py.int. cbn [Py.rstrip_by].
  destruct (Py.rstrip_by Py.int_space r); reflexivity.
Qed.

(** The identifier rule is stable: a numeric string becomes that integer;
    any other string becomes a handle that starts with ['@'], that the rule
    maps to itself, and that names the same channel as the configured
    string once leading ['@'] are dropped (the name the fallback URL uses). *)
Theorem to_chat_id_normal (ch : string) :
  match to_chat_id ch with
  | ChatInt n => Py.int ch = Some n
  | ChatStr h =>
      Py.int ch = None /\ Py.startswith "@" h = true /\
      to_chat_id h = ChatStr h /\ Py.lstrip "@" h = Py.lstrip "@" ch
  end.
Proof.
  unfold to_chat_id. destruct (Py.int ch) as [n|] eqn:Hint; [reflexivity|].
  split; [reflexivity|].
  destruct (Py.startswith "@" ch) eqn:Hat.
  - split; [exact Hat|]. split; [|reflexivity].
    rewrite Hint, Hat. reflexivity.
  - change ("@" +:+ ch) with (String "@" ch).
    assert (Hat' : Py.startswith "@" (String "@" ch) = true).
    { apply prefix_correct. destruct ch; reflexivity. }
    split; [exact Hat'|]. split; [|reflexivity].
    rewrite int_of_handle, Hat'. reflexivity.
Qed.

(** ** The invite-link cache *)

(** A first successful resolution of a channel writes the cache; from then
    on the same channel resolves to the same link without any call of the
    chat client and without touching the store. *)
Theorem invite_link_cached_after_success (w : World) (channel_id link : string)
    (s : Store) :
  cached_invite_link (channels_collection s) channel_id = None ->
  create_chat_invite_link w (to_chat_id channel_id) = Ok link ->
  link <> EmptyString ->
  outcome (get_channel_invite_link w channel_id s) = Ok link
  /\ trace (get_channel_invite_link w channel_id s) =
       [CreateChatInviteLink (to_chat_id channel_id)]
  /\ get_channel_invite_link w channel_id
       (final (get_channel_invite_link w channel_id s)) =
     (Ok link, final (get_channel_invite_link w channel_id s), []).
Proof.
  intros Hmiss Hcreate Hlink.
  assert (Hfirst : get_channel_invite_link w channel_id s =
            (Ok link,
             {| links_collection := links_collection s;
                users_collection := users_collection s;
                channels_collection :=
                  <[channel_id := {| invite_link := Some link |}]> (channels_collection s);
                user_data := user_data s |},
             [CreateChatInviteLink (to_chat_id channel_id)])).
  { unfold get_channel_invite_link, try_except, bind, get, emit, of_res, modify, ret.
    cbv beta iota. rewrite Hmiss, Hcreate. reflexivity. }
  rewrite Hfirst. unfold outcome, trace, final. cbn [fst snd].
  split; [reflexivity|]. split; [reflexivity|].
  unfold get_channel_invite_link, bind, get, ret. cbv beta iota.
  unfold cached_invite_link. cbn [channels_collection].
  rewrite lookup_insert_eq.
  destruct link; [contradiction Hlink; reflexivity | reflexivity].
Qed.

Lemma invite_link_cached_after_success_witness :
  get_channel_invite_link Scenario.gated_world "@grouptest"
    (final (get_channel_invite_link Scenario.gated_world "@grouptest" Scenario.empty_store)) =
    (Ok "https://t.me/+AbCdEf",
     final (get_channel_invite_link Scenario.gated_world "@grouptest" Scenario.empty_store),
     []).
Proof.
  apply (invite_link_cached_after_success Scenario.gated_world "@grouptest"
           "https://t.me/+AbCdEf" Scenario.empty_store eq_refl eq_refl).
  discriminate.
Defined.

(** ** The join keyboard and the way back from it *)

Section KeyboardShape.

Variable w : World.

Lemma join_rows_shape (channels : list string) (s : Store) (rows : InlineKeyboardMarkup) :
  outcome (join_rows w channels s) = Ok rows ->
  length rows = length channels /\
  Forall (fun row => exists link, row = [join_button link]) rows.
Proof.
  revert s rows. induction channels as [|ch rest IH]; intros s rows.
  - intros [= <-]. split; [reflexivity | constructor].
  - cbn [join_rows]. unfold bind, outcome.
    destruct (get_channel_invite_link w ch s) as [[[l|e] s1] t1]; [|discriminate].
    specialize (IH s1). unfold outcome in IH.
    destruct (join_rows w rest s1) as [[[rows'|e] s2] t2]; [|discriminate].
    cbn [fst snd ret]. intros [= <-].
    destruct (IH rows' eq_refl) as [Hlen Hrows].
    split; [cbn; rewrite Hlen; reflexivity|].
    constructor; [exists l; reflexivity | exact Hrows].
Qed.

Lemma build_join_keyboard_shape (encoded_id : option string) (s : Store)
    (kb : InlineKeyboardMarkup) :
  outcome (build_join_keyboard w encoded_id s) = Ok kb ->
  exists rows,
    kb = (rows ++ [[check_button
                      match encoded_id with
                      | Some e => if Py.truthy e then "check_join_" +:+ e else "check_join"
                      | None => "check_join"
                      end]])%list /\
    length rows = length (get_support_channels w) /\
    Forall (fun row => exists link, row = [join_button link]) rows.
Proof.
  unfold build_join_keyboard, bind, outcome.
  pose proof (join_rows_shape (get_support_channels w) s) as H. unfold outcome in H.
  destruct (join_rows w (get_support_channels w) s) as [[[rows|e] s1] t1]; [|discriminate].
  cbn [fst snd ret]. intros [= <-]. exists rows.
  split; [reflexivity|]. apply H. reflexivity.
Qed.

(** What [/start] does when the gate refuses. *)
Lemma start_gated (u : CommandUpdate) (s : Store) :
  forallb (passes w (id (effective_user u))) (get_support_channels w) = false ->
  start w u s =
    match build_join_keyboard w (head (args u))
            (with_users (upsert_user (presence w (effective_user u))) s) with
    | (Ok kb, s2, t) =>
        (Ok tt, s2,
         map (query (id (effective_user u)))
             (queried w (id (effective_user u)) (get_support_channels w)) ++
         t ++
         [ReplyText ("🔐 *Protected Access*" +:+ nl +:+ nl +:+
                     "Please join **ALL channels below**, then press ✅ Check.")
            (Some kb) (Some MARKDOWN)])%list
    | (Raise e, s2, t) =>
        (Raise e, s2,
         map (query (id (effective_user u)))
             (queried w (id (effective_user u)) (get_support_channels w)) ++ t)%list
    end.
Proof.
  intros Hgate. unfold start, bind at 1, modify. unfold bind at 1.
  rewrite check_channel_membership_run, Hgate. cbn [negb].
  unfold bind, emit, with_users, presence.
  destruct (build_join_keyboard w (head (args u)) _) as [[[kb|e] s2] t2]; reflexivity.
Qed.

End KeyboardShape.

(** A requester whom the gate refuses on [/start <token>], when the join
    keyboard can be built, is shown one join button per configured channel
    and, last, one Check button; the data of that button is accepted by
    [button_callback] and gives back exactly the token of the command,
    underscores included. *)
Theorem gated_start_offers_recheck (w : World) (u : CommandUpdate) (token : string)
    (rest : list string) (s : Store) :
  args u = token :: rest ->
  token <> EmptyString ->
  forallb (passes w (id (effective_user u))) (get_support_channels w) = false ->
  outcome (start w u s) = Ok tt ->
  exists rows,
    length rows = length (get_support_channels w)
    /\ Forall (fun row => exists link, row = [join_button link]) rows
    /\ List.last (trace (start w u s)) GetMe =
         ReplyText ("🔐 *Protected Access*" +:+ nl +:+ nl +:+
                    "Please join **ALL channels below**, then press ✅ Check.")
           (Some (rows ++ [[check_button ("check_join_" +:+ token)]])%list)
           (Some MARKDOWN)
    /\ Py.startswith "check_join" ("check_join_" +:+ token) = true
    /\ Py.last (Py.splitn "_" ("check_join_" +:+ token) 2) = token.
Proof.
  intros Hargs Htoken Hgate.
  rewrite (start_gated w u s Hgate), Hargs. cbn [head].
  pose proof (build_join_keyboard_shape w (Some token)
                (with_users (upsert_user (presence w (effective_user u))) s)) as Hshape.
  unfold outcome in Hshape.
  destruct (build_join_keyboard w (Some token) _) as [[[kb|e'] s2] t2];
    unfold outcome, trace; cbn [fst snd] in Hshape |- *; [|discriminate].
  intros _. destruct (Hshape kb eq_refl) as (rows & -> & Hlen & Hrows).
  exists rows. split; [exact Hlen|]. split; [exact Hrows|].
  split; [|split].
  - rewrite app_assoc, last_last.
    destruct token; [contradiction Htoken; reflexivity | reflexivity].
  - apply prefix_correct. reflexivity.
  - apply recheck_token.
Qed.

Lemma gated_start_offers_recheck_witness :
  exists rows,
    length rows = length (get_support_channels Scenario.gated_world)
    /\ Forall (fun row => exists link, row = [join_button link]) rows
    /\ List.last
         (trace (start Scenario.gated_world
                   {| effective_user := Scenario.bob; args := ["a_b"];
                      reply_to_message := None |} Scenario.empty_store)) GetMe =
         ReplyText ("🔐 *Protected Access*" +:+ nl +:+ nl +:+
                    "Please join **ALL channels below**, then press ✅ Check.")
           (Some (rows ++ [[check_button ("check_join_" +:+ "a_b")]])%list)
           (Some MARKDOWN)
    /\ Py.startswith "check_join" ("check_join_" +:+ "a_b") = true
    /\ Py.last (Py.splitn "_" ("check_join_" +:+ "a_b") 2) = "a_b".
Proof.
  apply (gated_start_offers_recheck Scenario.gated_world
           {| effective_user := Scenario.bob; args := ["a_b"]; reply_to_message := None |}
           "a_b" [] Scenario.empty_store eq_refl).
  - discriminate.
  - vm_compute. reflexivity.
  - vm_compute. reflexivity.
Defined.

(** ** Redemption of an active link *)

(** For a requester who passes the gate, a token whose record is active
    is answered with the launcher, through [/start] as through the re-check
    callback; the launcher points at [<base URL>/join?token=<token>] and
    carries nothing of the record itself. *)
Theorem active_link_resolves (w : World) (user : User) (token : string)
    (rest : list string) (reply : option Message) (s : Store) (d : ProtectedLink) :
  Forall (admits w (id user)) (get_support_channels w) ->
  links_collection s !! token = Some d ->
  active d = true ->
  let u := {| effective_user := user; args := token :: rest; reply_to_message := reply |} in
  let q := {| from_user := user; data := "check_join_" +:+ token |} in
  let target :=
    Py.str_of_opt (environ w !! "RENDER_EXTERNAL_URL") +:+ "/join?token=" +:+ token in
  List.last (trace (start w u s)) GetMe =
    ReplyText "🔐 Protected Link"
      (Some [[ {| text := "🔗 Join Group"; action := WebApp target |} ]]) None
  /\ List.last (trace (button_callback w q s)) GetMe =
    EditText "✅ Verified"
      (Some [[ {| text := "🔗 Join Group"; action := WebApp target |} ]]).
Proof.
  intros Hgate Hlink Hactive u q target.
  apply forallb_admits in Hgate.
  assert (F : find_one_active (links_collection s) token = Some d)
    by (unfold find_one_active; rewrite Hlink, Hactive; reflexivity).
  split.
  - rewrite (start_passed w u token rest) by (reflexivity || exact Hgate).
    rewrite F. unfold trace. cbn [snd]. apply last_last.
  - rewrite (button_callback_passed w q) by (reflexivity || exact Hgate).
    cbn zeta. replace (data q) with ("check_join_" +:+ token) by reflexivity.
    rewrite recheck_token, F. unfold trace. cbn [snd].
    rewrite app_comm_cons. apply last_last.
Qed.

Lemma active_link_resolves_witness :
  List.last
    (trace (start Cases.configured_world
              {| effective_user := Scenario.alice; args := ["a_b"];
                 reply_to_message := None |} Cases.live_store)) GetMe =
    ReplyText "🔐 Protected Link"
      (Some [[ {| text := "🔗 Join Group";
                  action := WebApp "https://bot.example/join?token=a_b" |} ]]) None.
Proof.
  apply (active_link_resolves Cases.configured_world Scenario.alice "a_b" [] None
           Cases.live_store Cases.live_link).
  - vm_compute. repeat constructor. exists MEMBER. split; [reflexivity | auto].
  - reflexivity.
  - reflexivity.
Defined.

(** Redemption never writes the registry, so [clicks] is never
    incremented and [active] never changes: [/start] leaves
    [protected_links] and [user_data] as they were, whatever it is given,
    and the re-check callback leaves the whole store as it was. *)
Theorem redemption_leaves_registry (w : World) (u : CommandUpdate) (q : CallbackQuery)
    (s : Store) :
  links_collection (final (start w u s)) = links_collection s
  /\ user_data (final (start w u s)) = user_data s
  /\ final (button_callback w q s) = s.
Proof.
  split; [|split].
  - destruct (forallb (passes w (id (effective_user u))) (get_support_channels w)) eqn:Hgate.
    + destruct (args u) as [|token rest] eqn:Hargs.
      * unfold start, bind at 1, modify. unfold bind at 1.
        rewrite check_channel_membership_run, Hgate, Hargs. reflexivity.
      * rewrite (start_passed w u token rest s Hargs Hgate). reflexivity.
    + rewrite (start_gated w u s Hgate).
      pose proof (build_join_keyboard_frame w (head (args u))
                    (with_users (upsert_user (presence w (effective_user u))) s)) as H.
      cbv zeta in H. unfold final in H |- *.
      destruct (build_join_keyboard w _ _) as [[[kb|e] s2] t2];
        cbn [fst snd] in H |- *; apply H.
  - destruct (forallb (passes w (id (effective_user u))) (get_support_channels w)) eqn:Hgate.
    + destruct (args u) as [|token rest] eqn:Hargs.
      * unfold start, bind at 1, modify. unfold bind at 1.
        rewrite check_channel_membership_run, Hgate, Hargs. reflexivity.
      * rewrite (start_passed w u token rest s Hargs Hgate). reflexivity.
    + rewrite (start_gated w u s Hgate).
      pose proof (build_join_keyboard_frame w (head (args u))
                    (with_users (upsert_user (presence w (effective_user u))) s)) as H.
      cbv zeta in H. unfold final in H |- *.
      destruct (build_join_keyboard w _ _) as [[[kb|e] s2] t2];
        cbn [fst snd] in H |- *; apply H.
  - unfold button_callback, bind at 1, emit at 1.
    destruct (Py.startswith "check_join" (data q)); [|reflexivity].
    unfold bind at 1. rewrite check_channel_membership_run.
    destruct (forallb _ _); cbn [negb]; [|reflexivity].
    destruct (Py.contains "_" (data q)); [|reflexivity].
    unfold bind, get, final. cbv beta iota.
    destruct (find_one_active _ _); reflexivity.
Qed.

(** ** What [/protect] writes *)

Section ProtectRuns.

Variable w : World.

Lemma admits_forallb (user : Z) (l : list string) :
  forallb (passes w user) l = true -> Forall (admits w user) l.
Proof.
  intros H. apply Forall_forall. intros ch Hin. apply passes_iff.
  rewrite forallb_forall in H. apply H, list_elem_of_In, Hin.
Qed.

(** [/protect] when the gate refuses. *)
Lemma protect_gated (u : CommandUpdate) (s : Store) :
  forallb (passes w (id (effective_user u))) (get_support_channels w) = false ->
  protect_command w u s =
    match build_join_keyboard w None s with
    | (Ok kb, s2, t) =>
        (Ok tt, s2,
         map (query (id (effective_user u)))
             (queried w (id (effective_user u)) (get_support_channels w)) ++
         t ++ [ReplyText "🔐 Join all support channels first." (Some kb) None])%list
    | (Raise e, s2, t) =>
        (Raise e, s2,
         map (query (id (effective_user u)))
             (queried w (id (effective_user u)) (get_support_channels w)) ++ t)%list
    end.
Proof.
  intros Hgate. unfold protect_command, bind at 1.
  rewrite check_channel_membership_run, Hgate. cbn [negb].
  unfold bind, emit.
  destruct (build_join_keyboard w None s) as [[[kb|e] s2] t2]; reflexivity.
Qed.

End ProtectRuns.

(** Whatever [/protect] is given and however it ends, it keeps every
    record of the registry as it was, and the only record it can add is
    the one under the generated token, whose destination starts with
    [https://t.me/], whose creator is the requester, and which is active
    with no clicks.  The user directory and the pending broadcasts are
    never touched. *)
Theorem protect_only_adds_its_record (w : World) (u : CommandUpdate) (s : Store) :
  let s' := final (protect_command w u s) in
  (forall k d, links_collection s !! k = Some d -> links_collection s' !! k = Some d)
  /\ (forall k d, links_collection s' !! k = Some d ->
       links_collection s !! k = Some d \/
       (k = Token.generate (os_urandom16 w) /\
        Py.startswith "https://t.me/" (telegram_link d) = true /\
        created_by d = id (effective_user u) /\ active d = true /\ clicks d = 0%Z))
  /\ users_collection s' = users_collection s
  /\ user_data s' = user_data s.
Proof.
  cbv zeta.
  destruct (forallb (passes w (id (effective_user u))) (get_support_channels w)) eqn:Hgate.
  - destruct (args u) as [|a rest] eqn:Hargs.
    + rewrite (protect_usage w u s (admits_forallb w _ _ Hgate)) by (left; exact Hargs).
      unfold final. cbn [fst snd]. auto.
    + destruct (Py.startswith "https://t.me/" a) eqn:Hprefix.
      * destruct (links_collection s !! Token.generate (os_urandom16 w)) as [d0|] eqn:Hkey.
        -- rewrite (protect_duplicate w u a rest s d0) by assumption.
           unfold final. cbn [fst snd]. auto.
        -- rewrite (protect_passed w u a rest s (admits_forallb w _ _ Hgate))
             by assumption.
           unfold final, with_links. cbn [fst snd links_collection users_collection user_data].
           split; [|split; [|split]]; try reflexivity.
           ++ intros k d Hk. rewrite lookup_insert_ne; [exact Hk|].
              intros <-. rewrite Hkey in Hk. discriminate.
           ++ intros k d Hk.
              destruct (decide (Token.generate (os_urandom16 w) = k)) as [<-|Hne].
              ** rewrite lookup_insert_eq in Hk. injection Hk as <-.
                 right. cbn. auto.
              ** rewrite lookup_insert_ne in Hk by exact Hne. left. exact Hk.
      * rewrite (protect_usage w u s (admits_forallb w _ _ Hgate))
          by (right; exists a, rest; split; assumption).
        unfold final. cbn [fst snd]. auto.
  - rewrite (protect_gated w u s Hgate).
    pose proof (build_join_keyboard_frame w None s) as H.
    cbv zeta in H. unfold final in H |- *.
    destruct (build_join_keyboard w None s) as [[[kb|e] s2] t2];
      cbn [fst snd] in H |- *; destruct H as (Hl & Hu & Hd);
      rewrite Hl; auto.
Qed.

(** A link that [/protect] has just created is redeemable: for a creator
    and a redeemer who both pass the gate, a [/start] with the generated
    token on the store [/protect] leaves is answered with the launcher for
    that token. *)
Theorem protect_then_redeem (w : World) (u : CommandUpdate) (destination : string)
    (rest : list string) (redeemer : User) (s : Store) :
  Forall (admits w (id (effective_user u))) (get_support_channels w) ->
  Forall (admits w (id redeemer)) (get_support_channels w) ->
  args u = destination :: rest ->
  Py.startswith "https://t.me/" destination = true ->
  links_collection s !! Token.generate (os_urandom16 w) = None ->
  List.last
    (trace (start w
              {| effective_user := redeemer;
                 args := [Token.generate (os_urandom16 w)];
                 reply_to_message := None |}
              (final (protect_command w u s)))) GetMe =
    ReplyText "🔐 Protected Link"
      (Some (launcher (web_url w (Token.generate (os_urandom16 w))))) None.
Proof.
  intros Hcreator Hredeemer Hargs Hprefix Hfresh.
  rewrite (protect_passed w u destination rest s) by assumption.
  unfold final. cbn [fst snd].
  rewrite (start_passed w _ (Token.generate (os_urandom16 w)) [])
    by (reflexivity || apply forallb_admits; exact Hredeemer).
  unfold find_one_active, with_links. cbn [links_collection].
  rewrite lookup_insert_eq. cbn [active new_link].
  unfold trace. cbn [snd]. apply last_last.
Qed.

Lemma protect_then_redeem_witness :
  List.last
    (trace (start Cases.configured_world
              {| effective_user := Scenario.alice;
                 args := [Token.generate (os_urandom16 Cases.configured_world)];
                 reply_to_message := None |}
              (final (protect_command Cases.configured_world
                        (Scenario.protect Scenario.alice ["https://t.me/mygroup"])
                        Scenario.empty_store)))) GetMe =
    ReplyText "🔐 Protected Link"
      (Some (launcher (web_url Cases.configured_world
                         (Token.generate (os_urandom16 Cases.configured_world))))) None.
Proof.
  assert (H : Forall (admits Cases.configured_world 1001)
                (get_support_channels Cases.configured_world)).
  { vm_compute. repeat constructor. exists MEMBER. split; [reflexivity | auto]. }
  apply (protect_then_redeem Cases.configured_world
           (Scenario.protect Scenario.alice ["https://t.me/mygroup"])
           "https://t.me/mygroup" [] Scenario.alice Scenario.empty_store
           H H eq_refl eq_refl eq_refl).
Defined.

(** A requester whom the gate refuses gets nothing written by [/protect],
    whatever the arguments are; when the join keyboard can be built the
    answer is the join prompt, with one join button per configured channel
    and, last, the bare Check button. *)
Theorem protect_refused_shows_join_prompt (w : World) (u : CommandUpdate) (s : Store) :
  forallb (passes w (id (effective_user u))) (get_support_channels w) = false ->
  links_collection (final (protect_command w u s)) = links_collection s
  /\ (outcome (protect_command w u s) = Ok tt ->
      exists rows,
        length rows = length (get_support_channels w)
        /\ Forall (fun row => exists link, row = [join_button link]) rows
        /\ List.last (trace (protect_command w u s)) GetMe =
             ReplyText "🔐 Join all support channels first."
               (Some (rows ++ [[check_button "check_join"]])%list) None).
Proof.
  intros Hgate. split; [apply protect_gated_frame, Hgate|].
  rewrite (protect_gated w u s Hgate).
  pose proof (build_join_keyboard_shape w None s) as Hshape. unfold outcome in Hshape.
  destruct (build_join_keyboard w None s) as [[[kb|e] s2] t2];
    unfold outcome, trace; cbn [fst snd] in Hshape |- *; [|discriminate].
  intros _. destruct (Hshape kb eq_refl) as (rows & -> & Hlen & Hrows).
  exists rows. split; [exact Hlen|]. split; [exact Hrows|].
  rewrite app_assoc. apply last_last.
Qed.

Lemma protect_refused_shows_join_prompt_witness :
  links_collection
    (final (protect_command Scenario.gated_world
              (Scenario.protect Scenario.bob ["https://t.me/mygroup"])
              Scenario.empty_store)) = links_collection Scenario.empty_store.
Proof.
  apply (protect_refused_shows_join_prompt Scenario.gated_world
           (Scenario.protect Scenario.bob ["https://t.me/mygroup"]) Scenario.empty_store).
  vm_compute. reflexivity.
Defined.

(** ** Broadcast initiation by the admin *)

Section BroadcastRuns.

Variable w : World.

Lemma admin_id_run (v : string) (n : Z) (s : Store) :
  environ w !! "ADMIN_ID" = Some v -> Py.int v = Some n ->
  admin_id w s = (Ok n, s, []).
Proof. intros Hv Hn. unfold admin_id. rewrite Hv, Hn. reflexivity. Qed.

(** The confirm branch of [handle_broadcast_confirmation], as one run. *)
Lemma confirm_run (q : CallbackQuery) (s : Store) :
  String.eqb (data q) "cancel_broadcast" = false ->
  handle_broadcast_confirmation w q s =
    (Ok tt, s,
     Answer None false ::
     flat_map (attempt w (user_data s !! id (from_user q))) (users_collection s) ++
     [EditText ("✅ Broadcast done: " +:+
                Py.str_of_Z
                  (Z.of_nat (length (List.filter
                                       (delivered w (user_data s !! id (from_user q)))
                                       (users_collection s)))) +:+
                " users") None])%list.
Proof.
  intros Hdata.
  unfold handle_broadcast_confirmation, bind at 1, emit at 1.
  rewrite Hdata. unfold bind at 1, get. unfold bind, emit.
  rewrite broadcast_loop_run. reflexivity.
Qed.

End BroadcastRuns.

(** With [ADMIN_ID] set to the requester's id: a [/broadcast] that replies
    to a message stores that message as the requester's pending payload,
    replacing whatever was pending, changes nothing else, and asks for
    confirmation; a [/broadcast] that replies to nothing is answered with
    the usage hint and changes nothing. *)
Theorem broadcast_stashes_payload (w : World) (u : CommandUpdate) (s : Store) (v : string) :
  environ w !! "ADMIN_ID" = Some v ->
  Py.int v = Some (id (effective_user u)) ->
  (forall m, reply_to_message u = Some m ->
     broadcast_command w u s =
       (Ok tt,
        {| links_collection := links_collection s;
           users_collection := users_collection s;
           channels_collection := channels_collection s;
           user_data := <[id (effective_user u) := m]> (user_data s) |},
        [ReplyText "⚠️ Confirm broadcast?"
           (Some [ [ {| text := "✅ Confirm"; action := CallbackData "confirm_broadcast" |} ];
                   [ {| text := "❌ Cancel"; action := CallbackData "cancel_broadcast" |} ] ])
           None])
     /\ user_data (final (broadcast_command w u s)) !! id (effective_user u) = Some m)
  /\ (reply_to_message u = None ->
      broadcast_command w u s =
        (Ok tt, s, [ReplyText "Reply to a message with /broadcast" None None])).
Proof.
  intros Hv Hn.
  assert (Hrun : forall k : Z -> M unit,
             bind (admin_id w) k s = k (id (effective_user u)) s).
  { intros k. unfold bind. rewrite (admin_id_run w v _ s Hv Hn).
    destruct (k _ s) as [[r s2] t2]. reflexivity. }
  split.
  - intros m Hm. unfold broadcast_command. rewrite Hrun.
    rewrite Z.eqb_refl, Hm. cbn [negb].
    split; [reflexivity|].
    unfold final, bind, modify, emit. cbn [fst snd user_data].
    apply lookup_insert_eq.
  - intros Hnone. unfold broadcast_command. rewrite Hrun.
    rewrite Z.eqb_refl, Hnone. reflexivity.
Qed.

Lemma broadcast_stashes_payload_witness :
  user_data
    (final (broadcast_command Cases.configured_world
              (Cases.broadcast_request Scenario.alice (Some Scenario.payload))
              Scenario.empty_store)) !! 1001%Z = Some Scenario.payload.
Proof.
  apply (proj1 (broadcast_stashes_payload Cases.configured_world
                  (Cases.broadcast_request Scenario.alice (Some Scenario.payload))
                  Scenario.empty_store "1001" eq_refl eq_refl)
           Scenario.payload eq_refl).
Defined.

(** With [ADMIN_ID] set to a number, every requester with another id gets
    the admin-only denial, and the store is unchanged. *)
Theorem broadcast_denied_for_non_admin (w : World) (u : CommandUpdate) (s : Store)
    (v : string) (n : Z) :
  environ w !! "ADMIN_ID" = Some v ->
  Py.int v = Some n ->
  id (effective_user u) <> n ->
  broadcast_command w u s = (Ok tt, s, [ReplyText "❌ Admin only" None None]).
Proof.
  intros Hv Hn Hne. unfold broadcast_command, bind.
  rewrite (admin_id_run w v n s Hv Hn).
  apply Z.eqb_neq in Hne. rewrite Hne. reflexivity.
Qed.

Lemma broadcast_denied_for_non_admin_witness :
  broadcast_command Cases.configured_world
    (Cases.broadcast_request Scenario.bob (Some Scenario.payload)) Scenario.empty_store =
    (Ok tt, Scenario.empty_store, [ReplyText "❌ Admin only" None None]).
Proof.
  apply (broadcast_denied_for_non_admin Cases.configured_world
           (Cases.broadcast_request Scenario.bob (Some Scenario.payload))
           Scenario.empty_store "1001" 1001 eq_refl eq_refl).
  discriminate.
Defined.

(** With [ADMIN_ID] set to something [int] does not read, [/broadcast]
    raises [ValueError] for every requester, the admin included, before
    any reply and without touching the store. *)
Theorem broadcast_fails_on_malformed_admin_id (w : World) (u : CommandUpdate) (s : Store)
    (v : string) :
  environ w !! "ADMIN_ID" = Some v ->
  Py.int v = None ->
  broadcast_command w u s = (Raise ValueError, s, []).
Proof.
  intros Hv Hn. unfold broadcast_command, bind, admin_id. rewrite Hv, Hn. reflexivity.
Qed.

Lemma broadcast_fails_on_malformed_admin_id_witness :
  broadcast_command Cases.misconfigured_world
    (Cases.broadcast_request Scenario.alice (Some Scenario.payload)) Scenario.empty_store =
    (Raise ValueError, Scenario.empty_store, []).
Proof.
  apply (broadcast_fails_on_malformed_admin_id Cases.misconfigured_world
           (Cases.broadcast_request Scenario.alice (Some Scenario.payload))
           Scenario.empty_store "admin" eq_refl eq_refl).
Defined.

(** Initiation and confirmation compose: whatever was pending before, once
    the admin's [/broadcast] has stored a message, the confirm handler run
    for the same user attempts a copy of exactly that message to every
    known user, in order. *)
Theorem broadcast_then_confirm_delivers (w : World) (u : CommandUpdate) (s : Store)
    (v : string) (m : Message) :
  environ w !! "ADMIN_ID" = Some v ->
  Py.int v = Some (id (effective_user u)) ->
  reply_to_message u = Some m ->
  List.filter is_copy
    (trace (handle_broadcast_confirmation w
              {| from_user := effective_user u; data := "confirm_broadcast" |}
              (final (broadcast_command w u s)))) =
    map (fun r => Copy m (user_id r)) (users_collection s).
Proof.
  intros Hv Hn Hm.
  assert (Hstash : final (broadcast_command w u s) =
            {| links_collection := links_collection s;
               users_collection := users_collection s;
               channels_collection := channels_collection s;
               user_data := <[id (effective_user u) := m]> (user_data s) |}).
  { unfold broadcast_command, bind, final.
    rewrite (admin_id_run w v _ s Hv Hn), Z.eqb_refl, Hm. reflexivity. }
  rewrite Hstash, confirm_run by reflexivity.
  unfold trace. cbn [snd user_data users_collection from_user].
  rewrite lookup_insert_eq.
  cbn [List.filter is_copy]. rewrite List.filter_app. cbn [List.filter is_copy].
  rewrite app_nil_r. apply copies_of_attempts.
Qed.

Lemma broadcast_then_confirm_delivers_witness :
  List.filter is_copy
    (trace (handle_broadcast_confirmation Cases.configured_world
              {| from_user := Scenario.alice; data := "confirm_broadcast" |}
              (final (broadcast_command Cases.configured_world
                        (Cases.broadcast_request Scenario.alice (Some Scenario.payload))
                        Scenario.pending_store)))) =
    map (fun r => Copy Scenario.payload (user_id r))
        (users_collection Scenario.pending_store).
Proof.
  apply (broadcast_then_confirm_delivers Cases.configured_world
           (Cases.broadcast_request Scenario.alice (Some Scenario.payload))
           Scenario.pending_store "1001" Scenario.payload eq_refl eq_refl eq_refl).
Defined.

(** ** The webhook *)

(** No exception of a handler leaves [process_update]. *)
Lemma process_update_returns (w : World) (upd : Update) (s : Store) :
  outcome (process_update w upd s) = Ok tt.
Proof.
  unfold process_update, outcome.
  destruct (first_match (handlers w) upd) as [run|]; [|reflexivity].
  destruct (run s) as [[[[]|e] s1] t1]; reflexivity.
Qed.

(** With a path token that is not the configured bot credential, or with
    no credential configured, the endpoint raises 403 whatever the body is,
    and nothing is dispatched: no client call, store unchanged.  With the
    right token, a body that decodes to an update is dispatched and answered
    with 200, whatever its handler did (a handler's exception ends in the
    error handler, not in the response); a body that does not decode makes
    the decoding exception leave the endpoint, nothing dispatched. *)
Theorem webhook_guard (w : World) (token : string) (body : Res Update) (s : Store) :
  (environ w !! "TELEGRAM_TOKEN" <> Some token ->
   webhook w token body s = (HTTPException 403, s, []))
  /\ (environ w !! "TELEGRAM_TOKEN" = Some token ->
      (forall upd, body = Ok upd ->
         webhook w token body s =
           (Response 200, final (process_update w upd s),
            trace (process_update w upd s)))
      /\ (forall e, body = Raise e ->
           webhook w token body s = (Unhandled e, s, []))).
Proof.
  unfold webhook, token_differs. split.
  - intros Hne. destruct (environ w !! "TELEGRAM_TOKEN") as [secret|]; [|reflexivity].
    destruct (String.eqb_spec token secret) as [->|]; [contradiction Hne; reflexivity|].
    reflexivity.
  - intros ->. rewrite String.eqb_refl. cbn [negb]. split.
    + intros upd ->.
      pose proof (process_update_returns w upd s) as H. unfold outcome, final, trace in *.
      destruct (process_update w upd s) as [[[[]|e] s1] t1]; [reflexivity | discriminate].
    + intros e ->. reflexivity.
Qed.

(** ** The user directory *)

Section UserDirectory.

Lemma upsert_user_ids_known (r : UserRecord) (l : list UserRecord) :
  In (user_id r) (map user_id l) -> map user_id (upsert_user r l) = map user_id l.
Proof.
  induction l as [|d l IH]; [contradiction|].
  intros Hin. cbn [upsert_user map].
  destruct (Z.eqb_spec (user_id d) (user_id r)) as [E|Hne].
  - cbn [map]. rewrite E. reflexivity.
  - cbn [map]. rewrite IH; [reflexivity|].
    destruct Hin as [E|Hin]; [contradiction | exact Hin].
Qed.

Lemma upsert_user_ids_new (r : UserRecord) (l : list UserRecord) :
  ~ In (user_id r) (map user_id l) ->
  map user_id (upsert_user r l) = (map user_id l ++ [user_id r])%list.
Proof.
  induction l as [|d l IH]; [reflexivity|].
  intros Hnin. cbn [upsert_user map].
  destruct (Z.eqb_spec (user_id d) (user_id r)) as [E|Hne].
  - contradiction Hnin. left. exact E.
  - cbn [map app]. rewrite IH; [reflexivity|].
    intros Hin. apply Hnin. right. exact Hin.
Qed.

Lemma upsert_user_unique (r : UserRecord) (l : list UserRecord) :
  List.NoDup (map user_id l) -> List.NoDup (map user_id (upsert_user r l)).
Proof.
  intros H. destruct (in_dec Z.eq_dec (user_id r) (map user_id l)) as [Hin|Hnin].
  - rewrite upsert_user_ids_known; assumption.
  - rewrite upsert_user_ids_new by assumption.
    apply NoDup_ListNoDup, NoDup_app. apply NoDup_ListNoDup in H.
    split; [exact H|]. split; [|apply NoDup_singleton].
    intros x Hx Hx'. apply list_elem_of_singleton in Hx'. subst x.
    apply Hnin, list_elem_of_In, Hx.
Qed.

Lemma upsert_user_present (r : UserRecord) (l : list UserRecord) :
  In r (upsert_user r l).
Proof.
  induction l as [|d l IH]; [left; reflexivity|].
  cbn [upsert_user]. destruct (Z.eqb (user_id d) (user_id r));
    [left; reflexivity | right; exact IH].
Qed.

Lemma upsert_user_others (r d : UserRecord) (l : list UserRecord) :
  In d l -> user_id d <> user_id r -> In d (upsert_user r l).
Proof.
  intros Hin Hne. induction l as [|e l IH]; [contradiction|].
  cbn [upsert_user]. destruct (Z.eqb_spec (user_id e) (user_id r)) as [E|Hne'].
  - destruct Hin as [->|Hin]; [contradiction | right; exact Hin].
  - destruct Hin as [->|Hin]; [left; reflexivity | right; apply IH, Hin].
Qed.

(** The user directory [/start] leaves (shared by the facts below). *)
Lemma start_users (w : World) (u : CommandUpdate) (s : Store) :
  users_collection (final (start w u s)) =
    upsert_user (presence w (effective_user u)) (users_collection s).
Proof.
  destruct (forallb (passes w (id (effective_user u))) (get_support_channels w)) eqn:Hgate.
  - destruct (args u) as [|token rest] eqn:Hargs.
    + unfold start, bind at 1, modify. unfold bind at 1.
      rewrite check_channel_membership_run, Hgate, Hargs. reflexivity.
    + rewrite (start_passed w u token rest s Hargs Hgate). reflexivity.
  - rewrite (start_gated w u s Hgate).
    pose proof (build_join_keyboard_frame w (head (args u))
                  (with_users (upsert_user (presence w (effective_user u))) s)) as H.
    cbv zeta in H. unfold final in H |- *.
    destruct (build_join_keyboard w _ _) as [[[kb|e] s2] t2];
      cbn [fst snd] in H |- *; destruct H as (_ & -> & _); reflexivity.
Qed.

End UserDirectory.

(** [/start] keeps the key of the user directory: if no two records share
    a [user_id] before, none do after; the requester has a record after,
    with the current time; and the records of all other users are kept. *)
Theorem start_keeps_user_ids_unique (w : World) (u : CommandUpdate) (s : Store) :
  List.NoDup (map user_id (users_collection s)) ->
  List.NoDup (map user_id (users_collection (final (start w u s))))
  /\ In {| user_id := id (effective_user u);
           username := user_username (effective_user u);
           first_name := user_first_name (effective_user u);
           last_active := now w |}
        (users_collection (final (start w u s)))
  /\ (forall r, In r (users_collection s) -> user_id r <> id (effective_user u) ->
                In r (users_collection (final (start w u s)))).
Proof.
  intros Hunique. rewrite start_users. split; [|split].
  - apply upsert_user_unique, Hunique.
  - apply (upsert_user_present (presence w (effective_user u))).
  - intros r Hin Hne. apply upsert_user_others; assumption.
Qed.

Lemma start_keeps_user_ids_unique_witness :
  List.NoDup
    (map user_id
       (users_collection
          (final (start Scenario.open_world
                    {| effective_user := Scenario.alice; args := [];
                       reply_to_message := None |} Scenario.pending_store)))).
Proof.
  apply (start_keeps_user_ids_unique Scenario.open_world
           {| effective_user := Scenario.alice; args := []; reply_to_message := None |}
           Scenario.pending_store).
  cbn. repeat constructor; cbn; intuition discriminate.
Defined.

(** With a user directory whose ids are unique, a confirmed broadcast
    sends no user more than one copy. *)
Theorem broadcast_copies_once (w : World) (q : CallbackQuery) (s : Store) (m : Message) :
  String.eqb (data q) "cancel_broadcast" = false ->
  user_data s !! id (from_user q) = Some m ->
  List.NoDup (map user_id (users_collection s)) ->
  List.NoDup (List.filter is_copy (trace (handle_broadcast_confirmation w q s))).
Proof.
  intros Hdata Hm Hunique.
  rewrite (confirm_run w q s Hdata), Hm. unfold trace. cbn [snd].
  cbn [List.filter is_copy]. rewrite List.filter_app. cbn [List.filter is_copy].
  rewrite app_nil_r, copies_of_attempts.
  rewrite <- (map_map user_id (fun chat => Copy m chat)).
  apply NoDup_ListNoDup, NoDup_fmap_2; [|apply NoDup_ListNoDup, Hunique].
  intros a b [= ->]. reflexivity.
Qed.

Lemma broadcast_copies_once_witness :
  List.NoDup
    (List.filter is_copy
       (trace (handle_broadcast_confirmation Scenario.flaky_world
                 (Scenario.press Scenario.alice "confirm_broadcast")
                 Scenario.pending_store))).
Proof.
  apply (broadcast_copies_once Scenario.flaky_world
           (Scenario.press Scenario.alice "confirm_broadcast") Scenario.pending_store
           Scenario.payload eq_refl eq_refl).
  cbn. repeat constructor; cbn; intuition discriminate.
Defined.

(** ** Two links for one destination *)

(** Protecting the same destination twice, with two draws whose UUIDs
    differ, gives two different tokens, and afterwards both tokens resolve
    to an active record of that destination. *)
Theorem two_protects_two_links (w : World) (r1 r2 : list byte) (u : CommandUpdate)
    (destination : string) (rest : list string) (s : Store) :
  length r1 = 16 -> length r2 = 16 ->
  Token.uuid4 r1 <> Token.uuid4 r2 ->
  Forall (admits w (id (effective_user u))) (get_support_channels w) ->
  args u = destination :: rest ->
  Py.startswith "https://t.me/" destination = true ->
  links_collection s !! Token.generate r1 = None ->
  links_collection s !! Token.generate r2 = None ->
  let s2 :=
    final (protect_command (Scenario.with_draw r2 w) u
             (final (protect_command (Scenario.with_draw r1 w) u s))) in
  Token.generate r1 <> Token.generate r2
  /\ (exists d1, find_one_active (links_collection s2) (Token.generate r1) = Some d1 /\
                 telegram_link d1 = destination)
  /\ (exists d2, find_one_active (links_collection s2) (Token.generate r2) = Some d2 /\
                 telegram_link d2 = destination).
Proof.
  intros Hlen1 Hlen2 Huuid Hgate Hargs Hprefix Hfresh1 Hfresh2 s2.
  assert (Htok : Token.generate r1 <> Token.generate r2).
  { intros E. apply Huuid. apply encode_inj; [apply uuid4_below | apply uuid4_below |];
      assumption. }
  assert (H1 : final (protect_command (Scenario.with_draw r1 w) u s) =
               with_links (insert (Token.generate r1)
                             (new_link (Scenario.with_draw r1 w) u destination)) s).
  { rewrite (protect_passed (Scenario.with_draw r1 w) u destination rest s);
      try assumption; reflexivity. }
  assert (H2 : s2 =
               with_links (insert (Token.generate r2)
                             (new_link (Scenario.with_draw r2 w) u destination))
                 (final (protect_command (Scenario.with_draw r1 w) u s))).
  { unfold s2.
    rewrite (protect_passed (Scenario.with_draw r2 w) u destination rest);
      try assumption; [reflexivity|].
    rewrite H1. unfold with_links. cbn [links_collection os_urandom16 Scenario.with_draw].
    rewrite lookup_insert_ne by exact Htok. exact Hfresh2. }
  split; [exact Htok|].
  rewrite H2, H1. unfold find_one_active, with_links. cbn [links_collection].
  split.
  - exists (new_link (Scenario.with_draw r1 w) u destination).
    rewrite lookup_insert_ne by (intros E; apply Htok; symmetry; exact E).
    rewrite lookup_insert_eq. split; reflexivity.
  - exists (new_link (Scenario.with_draw r2 w) u destination).
    rewrite lookup_insert_eq. split; reflexivity.
Qed.

Lemma two_protects_two_links_witness :
  Token.generate Scenario.draw_a <> Token.generate (repeat x01 16).
Proof.
  apply (two_protects_two_links Cases.configured_world Scenario.draw_a (repeat x01 16)
           (Scenario.protect Scenario.alice ["https://t.me/mygroup"])
           "https://t.me/mygroup" [] Scenario.empty_store eq_refl eq_refl).
  - vm_compute. discriminate.
  - vm_compute. repeat constructor. exists MEMBER. split; [reflexivity | auto].
  - reflexivity.
  - reflexivity.
  - reflexivity.
  - reflexivity.
Defined.

(** ** Re-check while still refused *)

(** A re-check by a requester whom the gate still refuses is acknowledged
    and answered with the alert only: no prompt is edited, no token is looked
    up, the store is unchanged; data that does not start with [check_join]
    is acknowledged and nothing more. *)
Theorem recheck_refused_alerts (w : World) (q : CallbackQuery) (s : Store) :
  (Py.startswith "check_join" (data q) = true ->
   forallb (passes w (id (from_user q))) (get_support_channels w) = false ->
   button_callback w q s =
     (Ok tt, s,
      Answer None false ::
      map (query (id (from_user q)))
          (queried w (id (from_user q)) (get_support_channels w)) ++
      [Answer (Some "❌ Join all channels first") true])%list)
  /\ (Py.startswith "check_join" (data q) = false ->
      button_callback w q s = (Ok tt, s, [Answer None false])).
Proof.
  split.
  - intros Hdata Hgate. unfold button_callback, bind at 1, emit at 1.
    rewrite Hdata. unfold bind at 1.
    rewrite check_channel_membership_run, Hgate. reflexivity.
  - intros Hdata. unfold button_callback, bind, emit. rewrite Hdata. reflexivity.
Qed.

Lemma recheck_refused_alerts_witness :
  button_callback Scenario.gated_world (Scenario.press Scenario.bob "check_join_a_b")
    Scenario.empty_store =
    (Ok tt, Scenario.empty_store,
     [Answer None false; GetChatMember (ChatStr "@grouptest") 1002;
      Answer (Some "❌ Join all channels first") true]).
Proof.
  apply (proj1 (recheck_refused_alerts Scenario.gated_world
                  (Scenario.press Scenario.bob "check_join_a_b") Scenario.empty_store)).
  - vm_compute. reflexivity.
  - vm_compute. reflexivity.
Defined.

Lemma webhook_guard_witness :
  webhook Cases.configured_world "guess"
    (Ok (CallbackUpdate (Scenario.press Scenario.bob "x"))) Scenario.empty_store =
    (HTTPException 403, Scenario.empty_store, [])
  /\ webhook Cases.configured_world "123:secret" (Raise ValueError) Scenario.empty_store =
    (Unhandled ValueError, Scenario.empty_store, []).
Proof.
  split.
  - apply (proj1 (webhook_guard Cases.configured_world "guess"
                    (Ok (CallbackUpdate (Scenario.press Scenario.bob "x")))
                    Scenario.empty_store)).
    vm_compute. discriminate.
  - apply (proj2 (proj2 (webhook_guard Cases.configured_world "123:secret"
                           (Raise ValueError) Scenario.empty_store) eq_refl)).
    reflexivity.
Defined.
